(** * freecad-microservice: the [POST /unfold] request handler

    A shallow embedding of the two variants of the upload handler,
    [src/main_freecad.py] and [src/main.py].  The handler is glue around
    three external libraries (libmagic, ezdxf, FreeCAD with its SheetMetal
    workbench); those libraries are a record of oracles, every one of
    which may raise.  The handler itself is embedded statement by
    statement in a state-and-exception monad whose state holds the
    filesystem, the log of external calls and the two locals the [finally]
    block reads ([tmp_path] and [flat_dxf_path]).

    Conventions of the model:
    - Python [str] is [string] (byte strings, ASCII case rules), [bytes]
      is [list byte], [float] is [Q]: the literals [1.0], [2] and
      [0.03937] and the division by [1024 * 1024] are exact, and
      [mm_to_inches] is the rational it would compute without rounding
      error;
    - an exception is the text [str(e)] gives;
    - a library call is a function of what it reads: the bytes of the
      file at the path it is given, or the object it is applied to;
    - a kernel object is truthy, and [doc.recompute()] may raise but does
      not change the bounding boxes read afterwards;
    - the filesystem is a finite map from paths to contents; [os.remove]
      of an existing path and writing to a path cannot fail. *)

From Stdlib Require Import ZArith QArith Ascii String List Bool Lia.
From Stdlib.Strings Require Import Byte.
From stdpp Require Import base option list strings gmap.

Set Warnings "-register-all".

Local Open Scope Z_scope.
Local Open Scope string_scope.

(** ** Python string operations *)

Module Py.

Definition lower_ascii (a : ascii) : ascii :=
  let n := N_of_ascii a in
  if ((65 <=? n) && (n <=? 90))%N then ascii_of_N (n + 32) else a.

(** [s.lower()] *)
Fixpoint lower (s : string) : string :=
  match s with
  | EmptyString => EmptyString
  | String a s' => String (lower_ascii a) (lower s')
  end.

(** [needle in hay] *)
Fixpoint contains (needle hay : string) : bool :=
  String.prefix needle hay ||
  match hay with
  | EmptyString => false
  | String _ hay' => contains needle hay'
  end.

(** [s.split(sep)] for a one-character separator; never the empty list. *)
Fixpoint split (sep : ascii) (s : string) : list string :=
  match s with
  | EmptyString => [EmptyString]
  | String a s' =>
      if Ascii.eqb a sep then EmptyString :: split sep s'
      else match split sep s' with
           | h :: t => String a h :: t
           | [] => [String a EmptyString]
           end
  end.

(** [str.isspace] on one ASCII character. *)
Definition isspace (a : ascii) : bool :=
  let n := N_of_ascii a in
  (((9 <=? n) && (n <=? 13)) || ((28 <=? n) && (n <=? 32)))%N.

Fixpoint lstrip (s : string) : string :=
  match s with
  | EmptyString => EmptyString
  | String a s' => if isspace a then lstrip s' else s
  end.

Fixpoint rstrip (s : string) : string :=
  match s with
  | EmptyString => EmptyString
  | String a s' =>
      match rstrip s' with
      | EmptyString => if isspace a then EmptyString else String a EmptyString
      | r => String a r
      end
  end.

(** [s.strip()] *)
Definition strip (s : string) : string := rstrip (lstrip s).

(** [l[-1]] on a list of strings ([default] stands for the IndexError
    that [split] never triggers). *)
Definition last_str (l : list string) : string := List.last l EmptyString.

(** [p.rfind(c)]: index of the last occurrence, [-1] when there is none. *)
Fixpoint rfind_from (c : ascii) (s : string) (i acc : Z) : Z :=
  match s with
  | EmptyString => acc
  | String a s' => rfind_from c s' (i + 1) (if Ascii.eqb a c then i else acc)
  end.

Definition rfind (c : ascii) (s : string) : Z := rfind_from c s 0 (-1).

(** [p[i:j]] for [0 <= i]. *)
Definition slice (s : string) (i j : Z) : string :=
  String.substring (Z.to_nat i) (Z.to_nat (j - i)) s.

(** [p[i:]] *)
Definition slice_from (s : string) (i : Z) : string :=
  String.substring (Z.to_nat i) (String.length s - Z.to_nat i) s.

Fixpoint all_dots (s : string) : bool :=
  match s with
  | EmptyString => true
  | String a s' => Ascii.eqb a "."%char && all_dots s'
  end.

(** [os.path.splitext(p)[-1]] (posixpath: separator [/], no altsep).
    The [while] loop of [genericpath._splitext] returns the extension at
    the first character of the base name that is not a dot, and falls
    through to the empty extension when the name has leading dots only. *)
Definition splitext_ext (p : string) : string :=
  let sepIndex := rfind "/"%char p in
  let dotIndex := rfind "."%char p in
  if (sepIndex <? dotIndex)%Z && negb (all_dots (slice p (sepIndex + 1) dotIndex))
  then slice_from p dotIndex
  else EmptyString.

(** [x in l] for a list of strings. *)
Definition str_in (x : string) (l : list string) : bool :=
  existsb (String.eqb x) l.

(** [round(x, decimals)] on rationals, ties to even. *)
Definition round_half_even (x : Q) : Z :=
  let n := Qnum x in
  let d := Zpos (Qden x) in
  let q := n / d in
  match (2 * (n mod d) ?= d)%Z with
  | Lt => q
  | Gt => q + 1
  | Eq => if Z.even q then q else q + 1
  end.

Definition round (x : Q) (decimals : nat) : Q :=
  let p := Z.pow 10 (Z.of_nat decimals) in
  Qred (Qmake (round_half_even (x * inject_Z p)) (Z.to_pos p)).

End Py.

(** ** Values exchanged with the outside *)

(** The body of a JSON response.  Dictionaries keep the order of their
    keys, as Python's do. *)
Inductive json :=
| JNull
| JNum (x : Q)
| JStr (s : string)
| JList (l : list json)
| JDict (kv : list (string * json)).

Inductive Response :=
| JSONResponse (status_code : Z) (content : json)
| PlainResponse (body : string) (status_code : Z).

Definition status_code (r : Response) : Z :=
  match r with
  | JSONResponse c _ => c
  | PlainResponse _ c => c
  end.

Definition body_keys (r : Response) : list string :=
  match r with
  | JSONResponse _ (JDict kv) => kv.*1
  | _ => []
  end.

Fixpoint assoc (k : string) (kv : list (string * json)) : option json :=
  match kv with
  | [] => None
  | (k', v) :: kv' => if String.eqb k k' then Some v else assoc k kv'
  end.

Definition body_get (k : string) (r : Response) : option json :=
  match r with
  | JSONResponse _ (JDict kv) => assoc k kv
  | _ => None
  end.

Definition json_str_opt (o : option string) : json :=
  match o with
  | Some s => JStr s
  | None => JNull
  end.

(** The request: [file.filename] and the bytes behind [file.file]. *)
Record UploadFile := {
  filename : string;
  content : list byte
}.

(** What the handler uses of an ezdxf document.  [query('TEXT')] ranges
    over every layout and block, the scaling loop over the modelspace
    only, so the entities outside the modelspace are kept apart. *)
Record Entity := {
  dxftype : string;
  dxf_text : string;
  geometry : list Q
}.

Record Drawing := {
  header : gmap string Z;
  layers : list string;
  modelspace : list Entity;
  other_entities : list Entity
}.

Definition query_TEXT (d : Drawing) : list Entity :=
  List.filter (fun e => String.eqb (dxftype e) "TEXT")
              (modelspace d ++ other_entities d).

Definition with_modelspace (d : Drawing) (es : list Entity) : Drawing :=
  {| header := header d; layers := layers d; modelspace := es;
     other_entities := other_entities d |}.

(** What the handler uses of the CAD kernel's objects. *)
Record bound_box := {
  XLength : Q;
  YLength : Q;
  ZLength : Q
}.

Record shape := {
  BoundBox : bound_box
}.

(** A document object; the ones a DXF import creates need not carry a
    [Shape] attribute. *)
Record document_object := {
  Name : string;
  Shape : option shape
}.

(** An operation that returns or raises; the exception is [str(e)]. *)
Inductive result (A : Type) :=
| Ok (a : A)
| Raise (e : string).
Arguments Ok {A} a.
Arguments Raise {A} e.

(** The external libraries.  Each field is one call the handler makes. *)
Record Libs := {
  magic_from_buffer : list byte -> result string;
  NamedTemporaryFile : gmap string (list byte) -> string -> string;
  ezdxf_readfile : list byte -> result Drawing;
  scale_uniform : Entity -> Q -> result Entity;
  saveas : Drawing -> result (list byte);
  Import_insert : list byte -> result (list document_object);
  Import_importDXF : list byte -> result (list document_object);
  Part_read : list byte -> result shape;
  recompute : list document_object -> result unit;
  SheetMetalUnfolder : option (document_object -> result document_object);
  Import_export : list document_object -> result (list byte);
  format_exc : string -> string
}.

(** ** The log of calls *)

Inductive Call :=
| C_magic_from_buffer (buf : list byte)
| C_NamedTemporaryFile (suffix path : string)
| C_write (path : string)
| C_newDocument
| C_readfile (path : string)
| C_scale_uniform (e : Entity) (s : Q)
| C_saveas (d : Drawing) (path : string)
| C_Import_insert (path : string)
| C_Import_importDXF (path : string)
| C_Objects_last
| C_Part_read (path : string)
| C_addObject
| C_recompute
| C_makeUnfold (obj : document_object)
| C_Shape (obj : document_object)
| C_Import_export (path : string)
| C_open_read (path : string)
| C_remove (path : string).

(** A call and, when it raised, its exception. *)
Inductive Event := Ev (c : Call) (raised : option string).

Definition is_scale_uniform (c : Call) : bool :=
  match c with
  | C_scale_uniform _ _ => true
  | _ => false
  end.


Definition is_cad_kernel (c : Call) : bool :=
  match c with
  | C_newDocument | C_Import_insert _ | C_Import_importDXF _ | C_Objects_last
  | C_Part_read _ | C_addObject | C_recompute | C_makeUnfold _ | C_Shape _
  | C_Import_export _ => true
  | _ => false
  end.

Definition call_of (ev : Event) : Call := let 'Ev c _ := ev in c.

(** ** The handler's monad *)

Record State := {
  fs : gmap string (list byte);
  log : list Event;
  tmp_path : option string;
  flat_dxf_path : option string
}.

Definition M (A : Type) : Type := State -> result A * State.

#[export] Instance M_ret : MRet M := fun A a st => (Ok a, st).
#[export] Instance M_bind : MBind M := fun A B f m st =>
  match m st with
  | (Ok a, st') => f a st'
  | (Raise e, st') => (Raise e, st')
  end.

Definition emit (ev : Event) (st : State) : State :=
  {| fs := fs st; log := log st ++ [ev];
     tmp_path := tmp_path st; flat_dxf_path := flat_dxf_path st |}.

Definition set_fs (f : gmap string (list byte)) (st : State) : State :=
  {| fs := f; log := log st;
     tmp_path := tmp_path st; flat_dxf_path := flat_dxf_path st |}.

(** A library call: logged, with its exception when it raises. *)
Definition call {A} (c : Call) (r : result A) : M A := fun st =>
  match r with
  | Ok a => (Ok a, emit (Ev c None) st)
  | Raise e => (Raise e, emit (Ev c (Some e)) st)
  end.

(** [try: m except Exception as e: h e] *)
Definition try_except {A} (m : M A) (h : string -> M A) : M A := fun st =>
  match m st with
  | (Ok a, st') => (Ok a, st')
  | (Raise e, st') => h e st'
  end.

(** [try: m finally: c].  An exception of [c] replaces the outcome. *)
Definition try_finally {A} (m : M A) (c : M unit) : M A := fun st =>
  let '(r, st') := m st in
  match c st' with
  | (Ok _, st'') => (r, st'')
  | (Raise e, st'') => (Raise e, st'')
  end.

Definition assign_tmp_path (p : string) : M unit := fun st =>
  (Ok tt, {| fs := fs st; log := log st;
             tmp_path := Some p; flat_dxf_path := flat_dxf_path st |}).

Definition assign_flat_dxf_path (p : string) : M unit := fun st =>
  (Ok tt, {| fs := fs st; log := log st;
             tmp_path := tmp_path st; flat_dxf_path := Some p |}).

Definition read_tmp_path : M (option string) := fun st => (Ok (tmp_path st), st).

Definition read_flat_dxf_path : M (option string) := fun st =>
  (Ok (flat_dxf_path st), st).

(** ** Filesystem and library operations, as the handler calls them *)

Section Operations.
Variable L : Libs.

(** [with tempfile.NamedTemporaryFile(delete=False, suffix=...)]: the
    file exists, empty, from the moment the name is known. *)
Definition mktemp (suffix : string) : M string := fun st =>
  let p := NamedTemporaryFile L (fs st) suffix in
  (Ok p, emit (Ev (C_NamedTemporaryFile suffix p) None)
              (set_fs (<[p := []]> (fs st)) st)).

(** [tmp.write(data)] *)
Definition write (p : string) (data : list byte) : M unit := fun st =>
  (Ok tt, emit (Ev (C_write p) None) (set_fs (<[p := data]> (fs st)) st)).

(** [ezdxf.readfile(path)] *)
Definition readfile (p : string) : M Drawing := fun st =>
  match fs st !! p with
  | Some data => call (C_readfile p) (ezdxf_readfile L data) st
  | None => call (C_readfile p) (Raise "No such file or directory") st
  end.

(** [for e in msp: try: e.scale_uniform(s) except Exception: continue].
    The entities are updated in place; one that raises stays as it was. *)
Fixpoint scale_loop (s : Q) (msp : list Entity) : M (list Entity) :=
  match msp with
  | [] => mret []
  | e :: msp' =>
      e' ← try_except (call (C_scale_uniform e s) (scale_uniform L e s))
                      (fun _ => mret e);
      rest ← scale_loop s msp';
      mret (e' :: rest)
  end.

(** [if scaling_factor != 1.0: msp = dxf_doc.modelspace(); for e in msp: ...] *)
Definition scale_modelspace (factor : Q) (dxf_doc : Drawing) : M Drawing :=
  if negb (Qeq_bool factor 1)
  then es ← scale_loop factor (modelspace dxf_doc);
       mret (with_modelspace dxf_doc es)
  else mret dxf_doc.

(** [dxf_doc.saveas(path, encoding="utf-8")] *)
Definition dxf_saveas (d : Drawing) (p : string) : M unit := fun st =>
  match saveas L d with
  | Ok data =>
      (Ok tt, emit (Ev (C_saveas d p) None) (set_fs (<[p := data]> (fs st)) st))
  | Raise e => (Raise e, emit (Ev (C_saveas d p) (Some e)) st)
  end.

(** A kernel importer reading the file at [p]. *)
Definition import_with (c : Call) (importer : list byte -> result (list document_object))
    (p : string) : M (list document_object) := fun st =>
  match fs st !! p with
  | Some data => call c (importer data) st
  | None => call c (Raise "No such file or directory") st
  end.

(** [doc.Objects[-1]] *)
Definition Objects_last (objs : list document_object) : M document_object :=
  match List.rev objs with
  | obj :: _ => call C_Objects_last (Ok obj)
  | [] => call C_Objects_last (Raise "list index out of range")
  end.

(** [Part.read(path)] *)
Definition part_read (p : string) : M shape := fun st =>
  match fs st !! p with
  | Some data => call (C_Part_read p) (Part_read L data) st
  | None => call (C_Part_read p) (Raise "No such file or directory") st
  end.

(** [obj.Shape] *)
Definition get_Shape (obj : document_object) : M shape :=
  match Shape obj with
  | Some sh => call (C_Shape obj) (Ok sh)
  | None => call (C_Shape obj) (Raise "object has no attribute 'Shape'")
  end.

(** [Import.export(objs, path)] *)
Definition export (objs : list document_object) (p : string) : M unit := fun st =>
  match Import_export L objs with
  | Ok data =>
      (Ok tt, emit (Ev (C_Import_export p) None) (set_fs (<[p := data]> (fs st)) st))
  | Raise e => (Raise e, emit (Ev (C_Import_export p) (Some e)) st)
  end.

(** [with open(path, "r") as f: f.read()] *)
Definition open_read (p : string) : M string := fun st =>
  match fs st !! p with
  | Some data => call (C_open_read p) (Ok (string_of_list_byte data)) st
  | None => call (C_open_read p) (Raise "No such file or directory") st
  end.

(** [if path and os.path.exists(path): os.remove(path)] *)
Definition remove_if_exists (path : option string) : M unit := fun st =>
  match path with
  | Some p =>
      if negb (String.eqb p "") && bool_decide (is_Some (fs st !! p))
      then (Ok tt, emit (Ev (C_remove p) None) (set_fs (delete p (fs st)) st))
      else (Ok tt, st)
  | None => (Ok tt, st)
  end.

(** The [finally] block, the same in both variants. *)
Definition cleanup : M unit :=
  p ← read_tmp_path;
  remove_if_exists p;;
  q ← read_flat_dxf_path;
  remove_if_exists q.

End Operations.

(** ** Unit detection, shared by both variants

    [units = header_vars.get('$INSUNITS', 0)] followed by the [if/elif]
    that sets [units_detected] and [scaling_factor]. *)

Definition INSUNITS (d : Drawing) : Z := default 0 (header d !! "$INSUNITS").

Definition units_detected (units : Z) : string :=
  if (units =? 4)%Z then "mm" else if (units =? 1)%Z then "inch" else "unknown".

Definition scaling_factor (units : Z) : Q :=
  if (units =? 4)%Z then (3937 # 100000)%Q
  else if (units =? 1)%Z then 1%Q else 1%Q.

(** [size_mb = file.file.tell() / (1024 * 1024)].  Division by a power of
    two is exact on floats, so the rational is the float. *)
Definition size_mb (f : UploadFile) : Q :=
  (inject_Z (Z.of_nat (length (content f))) / inject_Z (1024 * 1024))%Q.

(** What the format dispatch leaves in the handler's locals. *)
Record Imported := {
  parsed_layers : list string;
  parsed_notes : list string;
  dxf_units : string;
  obj : document_object;
  Objects : list document_object
}.

Definition json_strs (l : list string) : json := JList (JStr <$> l).

(** ** [src/main_freecad.py] *)

Module main_freecad.
Section Handler.
Variable L : Libs.

(** [mm_to_inches(val_mm, decimals=3)] *)
Definition mm_to_inches (val_mm : Q) (decimals : nat) : Q :=
  Py.round (val_mm * (393701 # 10000000)) decimals.

Definition allowed_mimes : list string :=
  ["application/dxf"; "application/octet-stream"; "text/plain"].

(** Lines 116-142: the [.dxf] branch.  [tmp_path] is rebound to the
    ASCII copy as soon as that copy is saved. *)
Definition dxf_branch (tmp : string) (doc : list document_object) : M Imported :=
  dxf_doc ← readfile L tmp;
  let units := INSUNITS dxf_doc in
  let layers_ := layers dxf_doc in
  let notes : list string := dxf_text <$> query_TEXT dxf_doc in
  dxf_doc' ← scale_modelspace L (scaling_factor units) dxf_doc;
  let ascii_path := tmp ++ "_ascii.dxf" in
  dxf_saveas L dxf_doc' ascii_path;;
  assign_tmp_path ascii_path;;
  objs ← import_with (C_Import_insert ascii_path) (Import_insert L) ascii_path;
  o ← Objects_last (doc ++ objs);
  mret {| parsed_layers := layers_; parsed_notes := notes;
          dxf_units := units_detected units; obj := o; Objects := doc ++ objs |}.

(** Lines 143-146: any other extension. *)
Definition generic_branch (tmp : string) (doc : list document_object) : M Imported :=
  sh ← part_read L tmp;
  o ← call C_addObject (Ok {| Name := "ImportedPart"; Shape := Some sh |});
  mret {| parsed_layers := []; parsed_notes := []; dxf_units := "unknown";
          obj := o; Objects := doc ++ [o] |}.

(** Lines 154-169: the body of the inner [try]. *)
Definition unfolding (makeUnfold : document_object -> result document_object)
    (imp : Imported) : M (json * json * option string) :=
  flat_obj ← call (C_makeUnfold (obj imp)) (makeUnfold (obj imp));
  call C_recompute (recompute L (Objects imp ++ [flat_obj]));;
  flat_sh ← get_Shape flat_obj;
  let flat_bb := BoundBox flat_sh in
  let flat_result :=
    JDict [("flat_x_mm", JNum (XLength flat_bb));
           ("flat_y_mm", JNum (YLength flat_bb))] in
  let flat_pattern_in :=
    JDict [("flat_x_in", JNum (mm_to_inches (XLength flat_bb) 3));
           ("flat_y_in", JNum (mm_to_inches (YLength flat_bb) 3))] in
  flat_file ← mktemp L ".dxf";
  assign_flat_dxf_path flat_file;;
  export L [flat_obj] flat_file;;
  dxf_data ← open_read flat_file;
  mret (flat_result, flat_pattern_in, Some dxf_data).

(** Lines 179-187: one turn of the loop over the notes. *)
Definition scan_note (acc : option string * option string * option string)
    (note : string) : option string * option string * option string :=
  let '(customer_name, part_number, part_description) := acc in
  let note_lower := Py.lower note in
  let field := Py.strip (Py.last_str (Py.split ":"%char note)) in
  if Py.contains "customer" note_lower
  then (Some field, part_number, part_description)
  else if Py.contains "part" note_lower && Py.contains "no" note_lower
  then (customer_name, Some field, part_description)
  else if Py.contains "desc" note_lower
  then (customer_name, part_number, Some field)
  else acc.

Definition scan_notes (notes : list string)
    : option string * option string * option string :=
  fold_left scan_note notes (None, None, None).

(** Lines 91-201: the body of the outer [try].  [obj] is a kernel
    object, so [if SheetMetalUnfolder and obj] tests the module only. *)
Definition unfold_try (file : UploadFile) : M Response :=
  if negb (Qle_bool (size_mb file) 2)
  then mret (JSONResponse 413 (JDict [("error", JStr "File too large. Max 2MB")]))
  else
    mime ← call (C_magic_from_buffer (take 2048 (content file)))
                (magic_from_buffer L (take 2048 (content file)));
    if negb (Py.str_in mime allowed_mimes)
    then mret (JSONResponse 415 (JDict [("error", JStr "Unsupported file type");
                                        ("detected_mime", JStr mime)]))
    else
      let suffix := Py.lower (Py.splitext_ext (filename file)) in
      tmp ← mktemp L suffix;
      write tmp (content file);;
      assign_tmp_path tmp;;
      doc ← call C_newDocument (Ok []);
      imp ← (if String.eqb suffix ".dxf" then dxf_branch tmp doc
             else generic_branch tmp doc);
      call C_recompute (recompute L (Objects imp));;
      flat ← match SheetMetalUnfolder L with
             | Some makeUnfold =>
                 try_except (x ← unfolding makeUnfold imp; mret (inl x))
                   (fun e => mret (inr (JSONResponse 500
                      (JDict [("error", JStr "Unfolding failed");
                              ("details", JStr e)]))))
             | None => mret (inl (JNull, JNull, None))
             end;
      match flat with
      | inr resp => mret resp
      | inl (flat_result, flat_pattern_in, dxf_data) =>
          sh ← get_Shape (obj imp);
          let bbox := BoundBox sh in
          let thickness_mm := ZLength bbox in
          let thickness_in := mm_to_inches thickness_mm 3 in
          let '(customer_name, part_number, part_description) :=
            scan_notes (parsed_notes imp) in
          mret (JSONResponse 200 (JDict [
            ("flat_pattern", flat_result);
            ("flat_pattern_in", flat_pattern_in);
            ("thickness_mm", JNum thickness_mm);
            ("thickness_in", JNum thickness_in);
            ("parsed_layers", json_strs (parsed_layers imp));
            ("parsed_notes", json_strs (parsed_notes imp));
            ("dxf_units", JStr (dxf_units imp));
            ("customer_name", json_str_opt customer_name);
            ("part_number", json_str_opt part_number);
            ("part_description", json_str_opt part_description);
            ("flat_dxf", json_str_opt dxf_data)]))
      end.

(** Lines 203-206 *)
Definition on_exception (e : string) : M Response :=
  mret (JSONResponse 500 (JDict [("error", JStr "Request failed");
                                 ("details", JStr e)])).

(** The handler: [tmp_path = flat_dxf_path = None], then
    [try ... except Exception ... finally ...] on the given filesystem. *)
Definition unfold (file : UploadFile) (fs0 : gmap string (list byte))
    : result Response * State :=
  try_finally (try_except (unfold_try file) on_exception) cleanup
    {| fs := fs0; log := []; tmp_path := None; flat_dxf_path := None |}.

End Handler.

(** Lines 78-80 *)
Definition rate_limit_handler : Response :=
  PlainResponse "Rate limit exceeded. Please slow down." 429.

End main_freecad.

(** ** [src/main.py]

    The earlier variant: no size or MIME check, no inner [try] around the
    unfolding, a different response body, and the stack trace as the
    details of a failure. *)

Module main.
Section Handler.
Variable L : Libs.

(** Lines 53-87: the [.dxf] branch. *)
Definition dxf_branch (tmp : string) (doc : list document_object) : M Imported :=
  dxf_doc ← readfile L tmp;
  let units := INSUNITS dxf_doc in
  let layers_ := layers dxf_doc in
  let notes : list string := dxf_text <$> query_TEXT dxf_doc in
  dxf_doc' ← scale_modelspace L (scaling_factor units) dxf_doc;
  let ascii_path := tmp ++ "_ascii.dxf" in
  dxf_saveas L dxf_doc' ascii_path;;
  assign_tmp_path ascii_path;;
  objs ← import_with (C_Import_importDXF ascii_path) (Import_importDXF L) ascii_path;
  o ← Objects_last (doc ++ objs);
  mret {| parsed_layers := layers_; parsed_notes := notes;
          dxf_units := units_detected units; obj := o; Objects := doc ++ objs |}.

(** Lines 89-92: any other extension. *)
Definition generic_branch (tmp : string) (doc : list document_object) : M Imported :=
  sh ← part_read L tmp;
  o ← call C_addObject (Ok {| Name := "ImportedPart"; Shape := Some sh |});
  mret {| parsed_layers := []; parsed_notes := []; dxf_units := "unknown";
          obj := o; Objects := doc ++ [o] |}.

(** Lines 100-112: the unfolding, not guarded by a [try] of its own. *)
Definition unfolding (makeUnfold : document_object -> result document_object)
    (imp : Imported) : M (json * option string) :=
  flat_obj ← call (C_makeUnfold (obj imp)) (makeUnfold (obj imp));
  call C_recompute (recompute L (Objects imp ++ [flat_obj]));;
  flat_sh ← get_Shape flat_obj;
  let flat_bb := BoundBox flat_sh in
  let flat_result :=
    JDict [("flat_x_mm", JNum (XLength flat_bb));
           ("flat_y_mm", JNum (YLength flat_bb))] in
  flat_file ← mktemp L ".dxf";
  assign_flat_dxf_path flat_file;;
  export L [flat_obj] flat_file;;
  dxf_data ← open_read flat_file;
  mret (flat_result, Some dxf_data).

(** Lines 41-126: the body of the [try].  [obj] is a kernel object, so
    [if SheetMetalUnfolder and obj] tests the module only. *)
Definition unfold_try (file : UploadFile) : M Response :=
  let suffix := Py.lower (Py.splitext_ext (filename file)) in
  tmp ← mktemp L suffix;
  write tmp (content file);;
  assign_tmp_path tmp;;
  doc ← call C_newDocument (Ok []);
  imp ← (if String.eqb suffix ".dxf" then dxf_branch tmp doc
         else generic_branch tmp doc);
  call C_recompute (recompute L (Objects imp));;
  '(flat_result, dxf_data) ← match SheetMetalUnfolder L with
                             | Some makeUnfold => unfolding makeUnfold imp
                             | None => mret (JNull, None)
                             end;
  sh ← get_Shape (obj imp);
  let bbox := BoundBox sh in
  mret (JSONResponse 200 (JDict [
    ("bounding_box_mm", JDict [("x", JNum (XLength bbox));
                               ("y", JNum (YLength bbox));
                               ("z", JNum (ZLength bbox))]);
    ("flat_pattern", flat_result);
    ("flat_dxf", json_str_opt dxf_data);
    ("parsed_layers", json_strs (parsed_layers imp));
    ("parsed_notes", json_strs (parsed_notes imp));
    ("dxf_units", JStr (dxf_units imp))])).

(** Lines 128-132 *)
Definition on_exception (e : string) : M Response :=
  mret (JSONResponse 500 (JDict [("error", JStr "Unfolding failed");
                                 ("details", JStr (format_exc L e))])).

Definition unfold (file : UploadFile) (fs0 : gmap string (list byte))
    : result Response * State :=
  try_finally (try_except (unfold_try file) on_exception) cleanup
    {| fs := fs0; log := []; tmp_path := None; flat_dxf_path := None |}.

End Handler.
End main.

(** ** What a run leaves behind *)

Definition option_of {A} (r : result A) : option A :=
  match r with
  | Ok a => Some a
  | Raise _ => None
  end.

Definition response_of (run : result Response * State) : result Response := run.1.
Definition fs_after (run : result Response * State) : gmap string (list byte) :=
  fs run.2.
Definition log_of (run : result Response * State) : list Event := log run.2.

(** The temporary files a run created: every path [NamedTemporaryFile]
    returned and every path [saveas] wrote. *)
Definition created_path (ev : Event) : option string :=
  match ev with
  | Ev (C_NamedTemporaryFile _ p) None => Some p
  | Ev (C_saveas _ p) None => Some p
  | _ => None
  end.

Definition temp_files (run : result Response * State) : list string :=
  omap created_path (log_of run).

(** ** A concrete installation, for running the handler

    libmagic knows three signatures; the DXF reader understands a
    two-byte toy encoding (a marker byte and the unit code); proxy
    entities cannot be transformed. *)

Module Demo.

Definition scale_entity (e : Entity) (s : Q) : Entity :=
  {| dxftype := dxftype e; dxf_text := dxf_text e;
     geometry := (fun x => Qred (x * s)) <$> geometry e |}.

Definition proxy : Entity :=
  {| dxftype := "ACAD_PROXY_ENTITY"; dxf_text := ""; geometry := [10%Q] |}.

Definition drawing (units : Z) : Drawing :=
  {| header := {["$INSUNITS" := units]};
     layers := ["0"; "BEND"];
     modelspace :=
       [ {| dxftype := "LINE"; dxf_text := ""; geometry := [0; 0; 100; 50]%Q |};
         proxy;
         {| dxftype := "TEXT"; dxf_text := "Customer: ACME "; geometry := [5; 5]%Q |} ];
     other_entities :=
       [ {| dxftype := "TEXT"; dxf_text := "Part No: 42-A"; geometry := [1; 1]%Q |} ] |}.

Definition part : shape :=
  {| BoundBox := {| XLength := 100; YLength := 50; ZLength := 2 |} |}.

Definition flat : shape :=
  {| BoundBox := {| XLength := 127; YLength := 50; ZLength := 0 |} |}.

Definition libs (unfolder : bool) : Libs :=
  {| magic_from_buffer := fun buf =>
       match buf with
       | x25 :: x50 :: _ => Ok "application/pdf"
       | x89 :: _ => Ok "image/png"
       | _ => Ok "text/plain"
       end;
     NamedTemporaryFile := fun fs suffix =>
       if bool_decide (is_Some (fs !! ("/tmp/tmp0" ++ suffix)))
       then "/tmp/tmp1" ++ suffix else "/tmp/tmp0" ++ suffix;
     ezdxf_readfile := fun data =>
       match data with
       | x30 :: x34 :: _ => Ok (drawing 4)
       | x30 :: x31 :: _ => Ok (drawing 1)
       | x30 :: _ => Ok (drawing 0)
       | _ => Raise "Not a DXF file"
       end;
     scale_uniform := fun e s =>
       if String.eqb (dxftype e) "ACAD_PROXY_ENTITY"
       then Raise "transformation not supported"
       else Ok (scale_entity e s);
     saveas := fun d => Ok [x30; x0a];
     Import_insert := fun data => Ok [ {| Name := "Shape"; Shape := Some part |} ];
     Import_importDXF := fun data => Ok [ {| Name := "Shape"; Shape := Some part |} ];
     Part_read := fun data =>
       match data with
       | [] => Raise "empty shape file"
       | _ => Ok part
       end;
     recompute := fun objs => Ok tt;
     SheetMetalUnfolder :=
       if unfolder then Some (fun o => Ok {| Name := "Unfold"; Shape := Some flat |})
       else None;
     Import_export := fun objs => Ok [x30; x0a; x45; x4f; x46];
     format_exc := fun e => "Traceback (most recent call last): " ++ e |}.

Definition dxf_mm : UploadFile := {| filename := "bracket.DXF"; content := [x30; x34] |}.
Definition dxf_inch : UploadFile := {| filename := "bracket.dxf"; content := [x30; x31] |}.
Definition step_file : UploadFile := {| filename := "bracket.step"; content := [x49; x53; x4f] |}.
Definition big_pdf : UploadFile :=
  {| filename := "manual.pdf";
     content := x25 :: x50 :: repeat x00 (N.to_nat 2097151) |}.

End Demo.

(** * Vocabulary of the properties *)

(** ** What the scaling loop does, as pure functions *)

Section Summaries.
Variable L : Libs.

(** The entity after its turn in the loop. *)
Definition rescale_entity (s : Q) (e : Entity) : Entity :=
  match scale_uniform L e s with
  | Ok e' => e'
  | Raise _ => e
  end.

Definition rescale (s : Q) (msp : list Entity) : list Entity :=
  rescale_entity s <$> msp.

(** The log entry of its turn. *)
Definition scale_event (s : Q) (e : Entity) : Event :=
  Ev (C_scale_uniform e s)
     match scale_uniform L e s with
     | Ok _ => None
     | Raise x => Some x
     end.

(** The document after the guarded loop, and what the loop logged. *)
Definition rescaled (factor : Q) (d : Drawing) : Drawing :=
  if negb (Qeq_bool factor 1) then with_modelspace d (rescale factor (modelspace d))
  else d.

Definition scale_log (factor : Q) (d : Drawing) : list Event :=
  if negb (Qeq_bool factor 1) then scale_event factor <$> modelspace d else [].

End Summaries.

(** ** States and runs *)

Definition emit_all (evs : list Event) (st : State) : State :=
  {| fs := fs st; log := log st ++ evs;
     tmp_path := tmp_path st; flat_dxf_path := flat_dxf_path st |}.

(** What one [if path and os.path.exists(path): os.remove(path)] logs. *)
Definition removal (path : option string) (f : gmap string (list byte)) : list Event :=
  match path with
  | Some p =>
      if negb (String.eqb p "") && bool_decide (is_Some (f !! p))
      then [Ev (C_remove p) None] else []
  | None => []
  end.

(** The filesystem it leaves. *)
Definition fs_without (path : option string) (f : gmap string (list byte))
    : gmap string (list byte) :=
  match path with
  | Some p =>
      if negb (String.eqb p "") && bool_decide (is_Some (f !! p))
      then delete p f else f
  | None => f
  end.

Definition after_cleanup (st : State) : State :=
  let f1 := fs_without (tmp_path st) (fs st) in
  {| fs := fs_without (flat_dxf_path st) f1;
     log := log st ++ removal (tmp_path st) (fs st) ++ removal (flat_dxf_path st) f1;
     tmp_path := tmp_path st;
     flat_dxf_path := flat_dxf_path st |}.

(** [Post] holds of the outcome and the final state of a run. *)
Definition satisfies {A} (x : result A * State) (Post : result A -> State -> Prop)
    : Prop :=
  Post x.1 x.2.

(** ** Responses *)

(** The keys of the body, in [main_freecad.py] (lines 189-201) and in
    [main.py] (lines 115-126). *)
Definition freecad_keys : list string :=
  ["flat_pattern"; "flat_pattern_in"; "thickness_mm"; "thickness_in";
   "parsed_layers"; "parsed_notes"; "dxf_units"; "customer_name";
   "part_number"; "part_description"; "flat_dxf"].

Definition main_keys : list string :=
  ["bounding_box_mm"; "flat_pattern"; "flat_dxf"; "parsed_layers";
   "parsed_notes"; "dxf_units"].

(** The fields the specification lists for one response, under the names
    the two variants give them. *)
Definition specified_fields : list string :=
  ["bounding_box_mm"; "flat_pattern"; "flat_pattern_in"; "flat_dxf";
   "parsed_layers"; "parsed_notes"; "dxf_units"; "customer_name";
   "part_number"; "part_description"].

(** ** The two branches of the format dispatch *)


(** [suffix = os.path.splitext(file.filename)[-1].lower()] *)
Definition suffix_of (file : UploadFile) : string :=
  Py.lower (Py.splitext_ext (filename file)).








(** ** The response as a function of the upload and the library outcomes *)

#[export] Instance result_ret : MRet result := fun A a => Ok a.
#[export] Instance result_bind : MBind result := fun A B f r =>
  match r with
  | Ok a => f a
  | Raise e => Raise e
  end.

(** [obj.Shape] *)
Definition shape_of (o : document_object) : result shape :=
  match Shape o with
  | Some sh => Ok sh
  | None => Raise "object has no attribute 'Shape'"
  end.

(** [objs[-1]] *)
Definition last_object (objs : list document_object) : result document_object :=
  match List.rev objs with
  | o :: _ => Ok o
  | [] => Raise "list index out of range"
  end.

Section Outcomes.
Variable L : Libs.

(** What the format dispatch computes, the temporary files aside. *)
Definition dispatch (importer : list byte -> result (list document_object))
    (file : UploadFile) : result Imported :=
  if String.eqb (suffix_of file) ".dxf"
  then
    d ← ezdxf_readfile L (content file);
    data ← saveas L (rescaled L (scaling_factor (INSUNITS d)) d);
    objs ← importer data;
    o ← last_object objs;
    mret {| parsed_layers := layers d;
            parsed_notes := dxf_text <$> query_TEXT d;
            dxf_units := units_detected (INSUNITS d);
            obj := o; Objects := objs |}
  else
    sh ← Part_read L (content file);
    let o := {| Name := "ImportedPart"; Shape := Some sh |} in
    mret {| parsed_layers := []; parsed_notes := []; dxf_units := "unknown";
            obj := o; Objects := [o] |}.

(** The dispatch followed by [doc.recompute()]. *)
Definition import_stage (importer : list byte -> result (list document_object))
    (file : UploadFile) : result Imported :=
  imp ← dispatch importer file;
  recompute L (Objects imp);;
  mret imp.

(** What the unfolding block computes: the unfolded object, its shape
    and the bytes of its DXF export. *)
Definition unfold_stage (makeUnfold : document_object -> result document_object)
    (imp : Imported) : result (document_object * shape * list byte) :=
  flat_obj ← makeUnfold (obj imp);
  recompute L (Objects imp ++ [flat_obj]);;
  flat_sh ← shape_of flat_obj;
  data ← Import_export L [flat_obj];
  mret (flat_obj, flat_sh, data).

Definition flat_mm (sh : shape) : json :=
  JDict [("flat_x_mm", JNum (XLength (BoundBox sh)));
         ("flat_y_mm", JNum (YLength (BoundBox sh)))].

Definition flat_in (sh : shape) : json :=
  JDict [("flat_x_in", JNum (main_freecad.mm_to_inches (XLength (BoundBox sh)) 3));
         ("flat_y_in", JNum (main_freecad.mm_to_inches (YLength (BoundBox sh)) 3))].

Definition error_response (msg details : string) : Response :=
  JSONResponse 500 (JDict [("error", JStr msg); ("details", JStr details)]).

Definition freecad_body (imp : Imported) (sh : shape)
    (flat : option (document_object * shape * list byte)) : json :=
  let '(customer_name, part_number, part_description) :=
    main_freecad.scan_notes (parsed_notes imp) in
  JDict [
    ("flat_pattern", from_option (fun x => flat_mm x.1.2) JNull flat);
    ("flat_pattern_in", from_option (fun x => flat_in x.1.2) JNull flat);
    ("thickness_mm", JNum (ZLength (BoundBox sh)));
    ("thickness_in", JNum (main_freecad.mm_to_inches (ZLength (BoundBox sh)) 3));
    ("parsed_layers", json_strs (parsed_layers imp));
    ("parsed_notes", json_strs (parsed_notes imp));
    ("dxf_units", JStr (dxf_units imp));
    ("customer_name", json_str_opt customer_name);
    ("part_number", json_str_opt part_number);
    ("part_description", json_str_opt part_description);
    ("flat_dxf", from_option (fun x => JStr (string_of_list_byte x.2)) JNull flat)].

Definition freecad_finish (imp : Imported)
    (flat : option (document_object * shape * list byte)) : Response :=
  match shape_of (obj imp) with
  | Ok sh => JSONResponse 200 (freecad_body imp sh flat)
  | Raise e => error_response "Request failed" e
  end.

(** The response of [main_freecad.py]. *)
Definition freecad_response (file : UploadFile) : Response :=
  if negb (Qle_bool (size_mb file) 2)
  then JSONResponse 413 (JDict [("error", JStr "File too large. Max 2MB")])
  else
    match magic_from_buffer L (take 2048 (content file)) with
    | Raise e => error_response "Request failed" e
    | Ok mime =>
        if negb (Py.str_in mime main_freecad.allowed_mimes)
        then JSONResponse 415 (JDict [("error", JStr "Unsupported file type");
                                      ("detected_mime", JStr mime)])
        else
          match import_stage (Import_insert L) file with
          | Raise e => error_response "Request failed" e
          | Ok imp =>
              match SheetMetalUnfolder L with
              | None => freecad_finish imp None
              | Some makeUnfold =>
                  match unfold_stage makeUnfold imp with
                  | Raise e => error_response "Unfolding failed" e
                  | Ok flat => freecad_finish imp (Some flat)
                  end
              end
          end
    end.

Definition main_body (imp : Imported) (sh : shape)
    (flat : option (document_object * shape * list byte)) : json :=
  JDict [
    ("bounding_box_mm", JDict [("x", JNum (XLength (BoundBox sh)));
                               ("y", JNum (YLength (BoundBox sh)));
                               ("z", JNum (ZLength (BoundBox sh)))]);
    ("flat_pattern", from_option (fun x => flat_mm x.1.2) JNull flat);
    ("flat_dxf", from_option (fun x => JStr (string_of_list_byte x.2)) JNull flat);
    ("parsed_layers", json_strs (parsed_layers imp));
    ("parsed_notes", json_strs (parsed_notes imp));
    ("dxf_units", JStr (dxf_units imp))].

(** The outcome of [main.py] before its [except]. *)
Definition main_outcome (file : UploadFile) : result Response :=
  imp ← import_stage (Import_importDXF L) file;
  flat ← match SheetMetalUnfolder L with
         | None => mret None
         | Some makeUnfold => x ← unfold_stage makeUnfold imp; mret (Some x)
         end;
  sh ← shape_of (obj imp);
  mret (JSONResponse 200 (main_body imp sh flat)).

(** The response of [main.py]. *)
Definition main_response (file : UploadFile) : Response :=
  match main_outcome file with
  | Ok r => r
  | Raise e => error_response "Unfolding failed" (format_exc L e)
  end.

End Outcomes.

(** ** The ways a request ends *)

(** The upload passed the size check and the MIME check, as [mime]. *)
Definition accepted (L : Libs) (file : UploadFile) (mime : string) : Prop :=
  Z.of_nat (length (content file)) <= 2 * 1024 * 1024 /\
  magic_from_buffer L (take 2048 (content file)) = Ok mime /\
  mime ∈ main_freecad.allowed_mimes.

(** The unfolding block ran to its end with [flat], or was skipped
    because no unfolder is loaded. *)
Definition unfolded (L : Libs) (imp : Imported)
    (flat : option (document_object * shape * list byte)) : Prop :=
  match SheetMetalUnfolder L with
  | None => flat = None
  | Some makeUnfold => exists x, unfold_stage L makeUnfold imp = Ok x /\ flat = Some x
  end.

(** The ways a request to [main_freecad.py] ends. *)
Inductive freecad_answer (L : Libs) (file : UploadFile) : Response -> Prop :=
| answer_too_large :
    2 * 1024 * 1024 < Z.of_nat (length (content file)) ->
    freecad_answer L file
      (JSONResponse 413 (JDict [("error", JStr "File too large. Max 2MB")]))
| answer_magic_raises e :
    Z.of_nat (length (content file)) <= 2 * 1024 * 1024 ->
    magic_from_buffer L (take 2048 (content file)) = Raise e ->
    freecad_answer L file (error_response "Request failed" e)
| answer_unsupported mime :
    Z.of_nat (length (content file)) <= 2 * 1024 * 1024 ->
    magic_from_buffer L (take 2048 (content file)) = Ok mime ->
    mime ∉ main_freecad.allowed_mimes ->
    freecad_answer L file
      (JSONResponse 415 (JDict [("error", JStr "Unsupported file type");
                                ("detected_mime", JStr mime)]))
| answer_import_raises mime e :
    accepted L file mime ->
    import_stage L (Import_insert L) file = Raise e ->
    freecad_answer L file (error_response "Request failed" e)
| answer_unfold_raises mime imp makeUnfold e :
    accepted L file mime ->
    import_stage L (Import_insert L) file = Ok imp ->
    SheetMetalUnfolder L = Some makeUnfold ->
    unfold_stage L makeUnfold imp = Raise e ->
    freecad_answer L file (error_response "Unfolding failed" e)
| answer_no_shape mime imp flat e :
    accepted L file mime ->
    import_stage L (Import_insert L) file = Ok imp ->
    unfolded L imp flat ->
    shape_of (obj imp) = Raise e ->
    freecad_answer L file (error_response "Request failed" e)
| answer_ok mime imp flat sh :
    accepted L file mime ->
    import_stage L (Import_insert L) file = Ok imp ->
    unfolded L imp flat ->
    shape_of (obj imp) = Ok sh ->
    freecad_answer L file (JSONResponse 200 (freecad_body imp sh flat)).

(** The ways a request to [main.py] ends. *)
Inductive main_answer (L : Libs) (file : UploadFile) : Response -> Prop :=
| main_import_raises e :
    import_stage L (Import_importDXF L) file = Raise e ->
    main_answer L file (error_response "Unfolding failed" (format_exc L e))
| main_unfold_raises imp makeUnfold e :
    import_stage L (Import_importDXF L) file = Ok imp ->
    SheetMetalUnfolder L = Some makeUnfold ->
    unfold_stage L makeUnfold imp = Raise e ->
    main_answer L file (error_response "Unfolding failed" (format_exc L e))
| main_no_shape imp flat e :
    import_stage L (Import_importDXF L) file = Ok imp ->
    unfolded L imp flat ->
    shape_of (obj imp) = Raise e ->
    main_answer L file (error_response "Unfolding failed" (format_exc L e))
| main_ok imp flat sh :
    import_stage L (Import_importDXF L) file = Ok imp ->
    unfolded L imp flat ->
    shape_of (obj imp) = Ok sh ->
    main_answer L file (JSONResponse 200 (main_body imp sh flat)).

(** ** Temporary files and the rest of the filesystem *)

(** Every temporary file of the run is gone, the copy of a [.dxf] upload
    excepted once the ASCII copy exists; and no other file changed. *)
Definition accounted (L : Libs) (tmp : string) (dxf : bool)
    (fs0 final : gmap string (list byte)) (l : list Event) : Prop :=
  ((forall f s, NamedTemporaryFile L f s <> "") ->
   forall p, p ∈ omap created_path l ->
     final !! p = None \/
     (p = tmp /\ dxf = true /\
      exists d, Ev (C_saveas d (tmp ++ "_ascii.dxf")) None ∈ l)) /\
  (forall q, q ∉ omap created_path l -> final !! q = fs0 !! q).

(** ** The notes (lines 179-187 of [main_freecad.py]) *)

(** [note.split(":")[-1].strip()] *)
Definition field_of (note : string) : string :=
  Py.strip (Py.last_str (Py.split ":"%char note)).

(** The branch of the [if/elif] chain a note takes. *)
Definition is_customer (note : string) : bool :=
  Py.contains "customer" (Py.lower note).

Definition is_part_number (note : string) : bool :=
  negb (is_customer note) &&
  (Py.contains "part" (Py.lower note) && Py.contains "no" (Py.lower note)).

Definition is_description (note : string) : bool :=
  negb (is_customer note) &&
  negb (Py.contains "part" (Py.lower note) && Py.contains "no" (Py.lower note)) &&
  Py.contains "desc" (Py.lower note).

(** The last element of [l] when there is one, [acc] otherwise. *)
Definition last_or (acc : option string) (l : list string) : option string :=
  match last l with
  | Some x => Some x
  | None => acc
  end.

(** ** Characters of a string *)

(** [c in s] for one character. *)
Fixpoint has_char (c : ascii) (s : string) : bool :=
  match s with
  | EmptyString => false
  | String a s' => Ascii.eqb a c || has_char c s'
  end.

Definition first_char (s : string) : option ascii :=
  match s with
  | EmptyString => None
  | String a _ => Some a
  end.

Fixpoint last_char (s : string) : option ascii :=
  match s with
  | EmptyString => None
  | String a s' =>
      match last_char s' with
      | Some b => Some b
      | None => Some a
      end
  end.

(** The last component of a path: [p.split("/")[-1]]. *)
Definition basename (p : string) : string := Py.last_str (Py.split "/"%char p).

(** * Properties *)

(** ** Python string operations, on examples *)

Example splitext_dxf : Py.splitext_ext "Bracket.DXF" = ".DXF".
Proof. reflexivity. Qed.
Example splitext_hidden : Py.splitext_ext "/tmp/.dxf" = "".
Proof. reflexivity. Qed.
Example splitext_dir_dot : Py.splitext_ext "a.b/part" = "".
Proof. reflexivity. Qed.
Example splitext_two : Py.splitext_ext "a/b.tar.gz" = ".gz".
Proof. reflexivity. Qed.
Example split_note : Py.split ":"%char "Customer: ACME : inc " = ["Customer"; " ACME "; " inc "].
Proof. reflexivity. Qed.
Example strip_note : Py.strip "  ACME inc 	" = "ACME inc".
Proof. reflexivity. Qed.
Example contains_no : Py.contains "no" "part no: 7" = true.
Proof. reflexivity. Qed.
Example round3 : Py.round ((254 # 10) * (393701 # 10000000))%Q 3 = (1 # 1)%Q.
Proof. reflexivity. Qed.

(** ** The size threshold *)

Lemma size_mb_over (f : UploadFile) :
  Qle_bool (size_mb f) 2 = false <-> 2 * 1024 * 1024 < Z.of_nat (length (content f)).
Proof.
  unfold size_mb. set (n := Z.of_nat (length (content f))).
  unfold Qdiv. change (/ inject_Z (1024 * 1024))%Q with (1 # 1048576)%Q.
  destruct (Qle_bool (inject_Z n * (1 # 1048576)) 2) eqn:E.
  - apply Qle_bool_iff in E. unfold Qle in E. cbn in E. split; [discriminate | lia].
  - split; [intros _ | reflexivity].
    assert (H : ~ (inject_Z n * (1 # 1048576) <= 2)%Q).
    { intros H. apply Qle_bool_iff in H. congruence. }
    unfold Qle in H. cbn in H. lia.
Qed.

Lemma size_mb_within (f : UploadFile) :
  Qle_bool (size_mb f) 2 = true <-> Z.of_nat (length (content f)) <= 2 * 1024 * 1024.
Proof.
  destruct (Qle_bool (size_mb f) 2) eqn:E.
  - split; [intros _ | reflexivity].
    destruct (Z_le_gt_dec (Z.of_nat (length (content f))) (2 * 1024 * 1024)) as [|G];
      [assumption |].
    apply Z.gt_lt, size_mb_over in G. congruence.
  - apply size_mb_over in E. split; [discriminate | lia].
Qed.

(** ** The scaling loop never raises *)

Section Scaling.
Variable L : Libs.

Lemma emit_emit_all ev evs st : emit_all evs (emit ev st) = emit_all (ev :: evs) st.
Proof. unfold emit_all, emit. cbn. by rewrite <- app_assoc. Qed.

Lemma emit_all_nil st : emit_all [] st = st.
Proof. destruct st. unfold emit_all. cbn. by rewrite app_nil_r. Qed.

Lemma scale_loop_run s msp st :
  scale_loop L s msp st = (Ok (rescale L s msp), emit_all (scale_event L s <$> msp) st).
Proof.
  revert st. induction msp as [|e msp IH]; intros st.
  - cbn. by rewrite emit_all_nil.
  - cbn [scale_loop]. unfold mbind, M_bind, try_except, call.
    unfold rescale, scale_event. cbn [fmap list_fmap].
    fold (scale_event L s). fold (rescale_entity L s).
    unfold rescale_entity at 1, scale_event at 1.
    destruct (scale_uniform L e s) as [e'|x]; cbn.
    + rewrite IH. cbn. by rewrite emit_emit_all.
    + rewrite IH. cbn. by rewrite emit_emit_all.
Qed.

Lemma scale_modelspace_run factor d st :
  scale_modelspace L factor d st =
    (Ok (rescaled L factor d), emit_all (scale_log L factor d) st).
Proof.
  unfold scale_modelspace, rescaled, scale_log.
  destruct (negb (Qeq_bool factor 1)).
  - unfold mbind, M_bind. rewrite scale_loop_run. reflexivity.
  - cbn. by rewrite emit_all_nil.
Qed.

Lemma scale_events_all_scale s (msp : list Entity) ev :
  ev ∈ scale_event L s <$> msp -> is_scale_uniform (call_of ev) = true.
Proof.
  intros H. apply list_elem_of_fmap in H as (e & -> & _). reflexivity.
Qed.

Lemma scale_log_all_scale factor d ev :
  ev ∈ scale_log L factor d -> is_scale_uniform (call_of ev) = true.
Proof.
  unfold scale_log. destruct (negb _); [apply scale_events_all_scale |].
  by intros ?%elem_of_nil.
Qed.

End Scaling.

(** ** Symbolic execution of the handler *)

Lemma str_in_spec (x : string) (l : list string) : Py.str_in x l = true <-> x ∈ l.
Proof.
  unfold Py.str_in. rewrite existsb_exists. split.
  - intros (y & Hy & E). apply String.eqb_eq in E. subst. by apply list_elem_of_In.
  - intros H. exists x. split; [by apply list_elem_of_In | apply String.eqb_refl].
Qed.

Lemma str_in_false (x : string) (l : list string) : x ∉ l -> Py.str_in x l = false.
Proof.
  intros H. destruct (Py.str_in x l) eqn:E; [|reflexivity].
  apply str_in_spec in E. contradiction.
Qed.

(** Unfolds the monad on a state, one layer at a time. *)
Ltac run_monad :=
  cbv beta iota zeta delta
      [mbind mret M_bind M_ret call try_except try_finally emit set_fs emit_all
       assign_tmp_path assign_flat_dxf_path read_tmp_path read_flat_dxf_path
       mktemp write readfile dxf_saveas import_with Objects_last part_read
       get_Shape export open_read remove_if_exists cleanup
       fs log tmp_path flat_dxf_path response_of log_of fs_after fst snd
       parsed_layers parsed_notes dxf_units obj Objects].

Ltac run_monad_in H :=
  cbv beta iota zeta delta
      [mbind mret M_bind M_ret call try_except try_finally emit set_fs emit_all
       assign_tmp_path assign_flat_dxf_path read_tmp_path read_flat_dxf_path
       mktemp write readfile dxf_saveas import_with Objects_last part_read
       get_Shape export open_read remove_if_exists cleanup
       fs log tmp_path flat_dxf_path response_of log_of fs_after fst snd
       parsed_layers parsed_notes dxf_units obj Objects] in H.

(** ** Size and MIME checks ([src/main_freecad.py], lines 91-102) *)

(** C3. An upload larger than 2 MB (2 * 1024 * 1024 bytes) is answered
    with status 413 and an error body.  Nothing else happens: the log of
    calls is empty, so no temporary file was created and the CAD kernel
    was never called, and the filesystem is as it was. *)
Theorem oversize_upload_rejected (L : Libs) (file : UploadFile)
    (fs0 : gmap string (list byte)) :
  2 * 1024 * 1024 < Z.of_nat (length (content file)) ->
  let run := main_freecad.unfold L file fs0 in
  response_of run =
    Ok (JSONResponse 413 (JDict [("error", JStr "File too large. Max 2MB")])) /\
  log_of run = [] /\
  temp_files run = [] /\
  Forall (fun ev => is_cad_kernel (call_of ev) = false) (log_of run) /\
  fs_after run = fs0.
Proof.
  intros Hsize. apply size_mb_over in Hsize.
  unfold main_freecad.unfold, main_freecad.unfold_try, temp_files.
  cbn zeta. rewrite Hsize. cbn [negb]. run_monad.
  repeat split; constructor.
Qed.

Lemma oversize_upload_rejected_witness :
  2 * 1024 * 1024 < Z.of_nat (length (content Demo.big_pdf)) /\
  response_of (main_freecad.unfold (Demo.libs true) Demo.big_pdf ∅) =
    Ok (JSONResponse 413 (JDict [("error", JStr "File too large. Max 2MB")])) /\
  log_of (main_freecad.unfold (Demo.libs true) Demo.big_pdf ∅) = [].
Proof.
  assert (Hsize : 2 * 1024 * 1024 < Z.of_nat (length (content Demo.big_pdf)))
    by (vm_compute; reflexivity).
  split; [exact Hsize |].
  pose proof (oversize_upload_rejected (Demo.libs true) Demo.big_pdf ∅ Hsize) as H.
  cbv zeta in H. split; apply H.
Defined.

(** C4, as the code has it.  The size check comes first, so the MIME
    check only decides for uploads of at most 2 MB: such an upload whose
    detected MIME type is not in the allowed list is answered with status
    415 and a body carrying the detected type.  The only call made is the
    MIME detection itself; the filesystem is as it was. *)
Theorem disallowed_mime_rejected (L : Libs) (file : UploadFile)
    (fs0 : gmap string (list byte)) (mime : string) :
  Z.of_nat (length (content file)) <= 2 * 1024 * 1024 ->
  magic_from_buffer L (take 2048 (content file)) = Ok mime ->
  mime ∉ main_freecad.allowed_mimes ->
  let run := main_freecad.unfold L file fs0 in
  response_of run =
    Ok (JSONResponse 415 (JDict [("error", JStr "Unsupported file type");
                                 ("detected_mime", JStr mime)])) /\
  log_of run = [Ev (C_magic_from_buffer (take 2048 (content file))) None] /\
  temp_files run = [] /\
  Forall (fun ev => is_cad_kernel (call_of ev) = false) (log_of run) /\
  fs_after run = fs0.
Proof.
  intros Hsize Hmagic Hmime.
  apply size_mb_within in Hsize. apply str_in_false in Hmime.
  unfold main_freecad.unfold, main_freecad.unfold_try, temp_files.
  cbn zeta. rewrite Hsize. cbn [negb]. run_monad. rewrite Hmagic. run_monad.
  rewrite Hmime. cbn [negb]. run_monad.
  repeat split; repeat constructor.
Qed.

Lemma disallowed_mime_rejected_witness :
  let png := {| filename := "logo.png"; content := [x89; x50; x4e; x47] |} in
  Z.of_nat (length (content png)) <= 2 * 1024 * 1024 /\
  ("image/png" ∉ main_freecad.allowed_mimes) /\
  response_of (main_freecad.unfold (Demo.libs true) png ∅) =
    Ok (JSONResponse 415 (JDict [("error", JStr "Unsupported file type");
                                 ("detected_mime", JStr "image/png")])).
Proof.
  intros png.
  assert (Hsize : Z.of_nat (length (content png)) <= 2 * 1024 * 1024)
    by (vm_compute; discriminate).
  assert (Hmime : "image/png" ∉ main_freecad.allowed_mimes).
  { intros H. apply str_in_spec in H. vm_compute in H. discriminate. }
  split; [exact Hsize |]. split; [exact Hmime |].
  apply (disallowed_mime_rejected (Demo.libs true) png ∅ "image/png" Hsize eq_refl Hmime).
Defined.

(** C4 as stated fails: an upload that is both oversize and of a
    disallowed type is answered with 413, not 415, and its type is never
    detected. *)
Lemma oversize_pdf_gets_413_not_415 :
  magic_from_buffer (Demo.libs true) (take 2048 (content Demo.big_pdf))
    = Ok "application/pdf" /\
  ("application/pdf" ∉ main_freecad.allowed_mimes) /\
  (status_code <$> option_of (response_of
     (main_freecad.unfold (Demo.libs true) Demo.big_pdf ∅))) = Some 413 /\
  (status_code <$> option_of (response_of
     (main_freecad.unfold (Demo.libs true) Demo.big_pdf ∅))) <> Some 415.
Proof.
  assert (H : response_of (main_freecad.unfold (Demo.libs true) Demo.big_pdf ∅) =
    Ok (JSONResponse 413 (JDict [("error", JStr "File too large. Max 2MB")])))
    by (vm_compute; reflexivity).
  rewrite H. repeat split.
  - intros H'. apply str_in_spec in H'. vm_compute in H'. discriminate.
  - discriminate.
Qed.

(** ** The [finally] block never raises *)

Lemma cleanup_run (st : State) : cleanup st = (Ok tt, after_cleanup st).
Proof.
  destruct st as [f l t fl].
  unfold cleanup, after_cleanup, removal, fs_without.
  cbv beta iota zeta delta
    [mbind mret M_bind M_ret read_tmp_path read_flat_dxf_path remove_if_exists
     emit set_fs fs log tmp_path flat_dxf_path].
  destruct t as [p|], fl as [q|];
    repeat match goal with
           | |- context [if ?b then _ else _] => destruct b
           end;
    rewrite ?app_nil_r, <- ?app_assoc; reflexivity.
Qed.

Lemma try_finally_cleanup {A} (m : M A) (st : State) :
  try_finally m cleanup st = ((m st).1, after_cleanup (m st).2).
Proof.
  unfold try_finally. destruct (m st) as [r st']. by rewrite cleanup_run.
Qed.

Lemma removal_quiet path f ev : ev ∈ removal path f -> exists p, ev = Ev (C_remove p) None.
Proof.
  unfold removal. destruct path as [p|]; [|by intros ?%elem_of_nil].
  destruct (_ && _); [|by intros ?%elem_of_nil].
  intros ->%list_elem_of_singleton. eauto.
Qed.

(** Runs the handler on every path through the library calls: a known
    outcome is used, an unknown one is split. *)
Ltac split_any :=
  match goal with
  | H : ?x = _ |- context [match ?x with _ => _ end] => rewrite H
  | |- context [match ?x with _ => _ end] =>
      lazymatch x with
      | context [match _ with _ => _ end] => fail
      | _ => destruct x
      end
  end.

Ltac name_temp_file :=
  match goal with
  | |- context [NamedTemporaryFile ?L ?f ?s] =>
      let p := fresh "path" in remember (NamedTemporaryFile L f s) as p
  end.

Ltac exec_step :=
  first
  [ progress run_monad
  | name_temp_file
  | match goal with |- context [scale_modelspace] => rewrite scale_modelspace_run end
  | match goal with |- context [<[?p:=_]> _ !! ?p] => rewrite lookup_insert_eq end
  | split_any ].

Ltac exec := repeat exec_step.

(** Folds a goal about [(m st).1] and [(m st).2] into [satisfies (m st) Post],
    so that running [m st] leaves the postcondition alone. *)
Ltac on_run :=
  match goal with |- context [(?X).1] => pattern (X.1), (X.2) end;
  match goal with
  | |- ?F (?X).1 _ =>
      let Post := fresh "Post" in
      set (Post := F); change (satisfies X Post)
  end.

Ltac leaf :=
  unfold satisfies; cbv beta iota delta [fst snd];
  match goal with Post := _ |- _ => subst Post end; cbv beta.

(** Membership of an event in a log that was built by appending. *)
Ltac in_log H :=
  repeat match type of H with
         | _ ∈ (_ ++ _)%list => apply elem_of_app in H as [H|H]
         | _ ∈ [] => apply elem_of_nil in H; contradiction
         | _ ∈ [_] => apply list_elem_of_singleton in H
         | _ ∈ _ :: _ => apply elem_of_cons in H as [H|H]
         end.

(** An event that cannot be a raised exception outside the scaling loop. *)
Ltac quiet_event H :=
  first
    [ discriminate H
    | apply removal_quiet in H as [? ?]; discriminate
    | apply scale_log_all_scale in H; cbn in H; congruence ].

(** ** The request boundary *)

Lemma freecad_exceptions_become_500 (L : Libs) (file : UploadFile)
    (fs0 : gmap string (list byte)) :
  exists r, response_of (main_freecad.unfold L file fs0) = Ok r /\
    forall c e, Ev c (Some e) ∈ log_of (main_freecad.unfold L file fs0) ->
      is_scale_uniform c = false ->
      exists msg, r = JSONResponse 500 (JDict [("error", JStr msg);
                                               ("details", JStr e)]).
Proof.
  unfold main_freecad.unfold. rewrite try_finally_cleanup.
  unfold response_of, log_of. cbn [fst snd]. on_run.
  unfold main_freecad.unfold_try, main_freecad.on_exception,
    main_freecad.dxf_branch, main_freecad.generic_branch, main_freecad.unfolding.
  exec.
  all: leaf; eexists; (split; [reflexivity|]); intros c' e' Hin Hns.
  all: unfold after_cleanup in Hin; run_monad_in Hin.
  all: in_log Hin; try quiet_event Hin.
  all: simplify_eq; eauto.
Qed.

Lemma main_exceptions_become_500 (L : Libs) (file : UploadFile)
    (fs0 : gmap string (list byte)) :
  exists r, response_of (main.unfold L file fs0) = Ok r /\
    forall c e, Ev c (Some e) ∈ log_of (main.unfold L file fs0) ->
      is_scale_uniform c = false ->
      r = JSONResponse 500 (JDict [("error", JStr "Unfolding failed");
                                   ("details", JStr (format_exc L e))]).
Proof.
  unfold main.unfold. rewrite try_finally_cleanup.
  unfold response_of, log_of. cbn [fst snd]. on_run.
  unfold main.unfold_try, main.on_exception,
    main.dxf_branch, main.generic_branch, main.unfolding.
  exec.
  all: leaf; eexists; (split; [reflexivity|]); intros c' e' Hin Hns.
  all: unfold after_cleanup in Hin; run_monad_in Hin.
  all: in_log Hin; try quiet_event Hin.
  all: simplify_eq; eauto.
Qed.

(** C5, as the code has it.  In both variants the handler always returns
    a response: no exception escapes it.  Every exception raised by a
    call other than an entity's [scale_uniform] ends the request with a
    500 response whose body has exactly an [error] message and a
    [details] field; the details are the exception's text in
    [main_freecad.py] and the stack trace in [main.py].  An exception of
    [scale_uniform] is swallowed inside the scaling loop instead. *)
Theorem exceptions_become_500 (L : Libs) (file : UploadFile)
    (fs0 : gmap string (list byte)) :
  (exists r, response_of (main_freecad.unfold L file fs0) = Ok r /\
     forall c e, Ev c (Some e) ∈ log_of (main_freecad.unfold L file fs0) ->
       is_scale_uniform c = false ->
       exists msg, r = JSONResponse 500 (JDict [("error", JStr msg);
                                                ("details", JStr e)])) /\
  (exists r, response_of (main.unfold L file fs0) = Ok r /\
     forall c e, Ev c (Some e) ∈ log_of (main.unfold L file fs0) ->
       is_scale_uniform c = false ->
       r = JSONResponse 500 (JDict [("error", JStr "Unfolding failed");
                                    ("details", JStr (format_exc L e))])).
Proof.
  split;
    [apply freecad_exceptions_become_500 | apply main_exceptions_become_500].
Qed.

(** C5 as stated fails: on a millimetre drawing with a proxy entity,
    [scale_uniform] raises during processing, yet the request is answered
    with 200. *)
Lemma swallowed_exception_gives_200 :
  Ev (C_scale_uniform
        {| dxftype := "ACAD_PROXY_ENTITY"; dxf_text := ""; geometry := [10%Q] |}
        (3937 # 100000))
     (Some "transformation not supported")
    ∈ log_of (main_freecad.unfold (Demo.libs true) Demo.dxf_mm ∅) /\
  (status_code <$> option_of (response_of
     (main_freecad.unfold (Demo.libs true) Demo.dxf_mm ∅))) = Some 200 /\
  (status_code <$> option_of (response_of
     (main_freecad.unfold (Demo.libs true) Demo.dxf_mm ∅))) <> Some 500.
Proof.
  repeat split.
  - apply list_elem_of_In. vm_compute. do 6 right. left. reflexivity.
  - vm_compute. discriminate.
Qed.

(** ** The body of a successful response *)

Lemma success_keys_freecad (L : Libs) (file : UploadFile)
    (fs0 : gmap string (list byte)) :
  forall r, response_of (main_freecad.unfold L file fs0) = Ok r ->
    status_code r = 200 -> body_keys r = freecad_keys.
Proof.
  unfold main_freecad.unfold. rewrite try_finally_cleanup.
  unfold response_of. cbn [fst snd].
  match goal with
  | |- forall r, (?X).1 = _ -> @?P r =>
      change (satisfies X (fun x _ => forall r, x = Ok r -> P r))
  end.
  unfold main_freecad.unfold_try, main_freecad.on_exception,
    main_freecad.dxf_branch, main_freecad.generic_branch, main_freecad.unfolding.
  exec.
  all: unfold satisfies; cbv beta iota delta [fst snd]; intros ? [= <-];
    (discriminate || reflexivity).
Qed.

Lemma success_keys_main (L : Libs) (file : UploadFile)
    (fs0 : gmap string (list byte)) :
  forall r, response_of (main.unfold L file fs0) = Ok r ->
    status_code r = 200 ->
    body_keys r = main_keys /\
    exists x y z, body_get "bounding_box_mm" r =
      Some (JDict [("x", JNum x); ("y", JNum y); ("z", JNum z)]).
Proof.
  unfold main.unfold. rewrite try_finally_cleanup.
  unfold response_of. cbn [fst snd].
  match goal with
  | |- forall r, (?X).1 = _ -> @?P r =>
      change (satisfies X (fun x _ => forall r, x = Ok r -> P r))
  end.
  unfold main.unfold_try, main.on_exception,
    main.dxf_branch, main.generic_branch, main.unfolding.
  exec.
  all: unfold satisfies; cbv beta iota delta [fst snd]; intros ? [= <-];
    (discriminate || (intros _; split; [reflexivity | cbn; eauto])).
Qed.

(** C6, as the code has it.  No variant returns all the listed fields.
    A successful response of [main_freecad.py] has exactly the keys
    [flat_pattern], [flat_pattern_in], [thickness_mm], [thickness_in],
    [parsed_layers], [parsed_notes], [dxf_units], [customer_name],
    [part_number], [part_description], [flat_dxf]: of the bounding box
    only the Z extent, as the thickness.  A successful response of
    [main.py] has exactly the keys [bounding_box_mm] (with [x], [y], [z]),
    [flat_pattern], [flat_dxf], [parsed_layers], [parsed_notes],
    [dxf_units]: no inch dimensions and no customer, part-number or
    description field. *)
Theorem success_response_keys (L : Libs) (file : UploadFile)
    (fs0 : gmap string (list byte)) :
  (forall r, response_of (main_freecad.unfold L file fs0) = Ok r ->
     status_code r = 200 -> body_keys r = freecad_keys) /\
  (forall r, response_of (main.unfold L file fs0) = Ok r ->
     status_code r = 200 ->
     body_keys r = main_keys /\
     exists x y z, body_get "bounding_box_mm" r =
       Some (JDict [("x", JNum x); ("y", JNum y); ("z", JNum z)])).
Proof.
  split; [apply success_keys_freecad | apply success_keys_main].
Qed.

Lemma success_response_keys_witness :
  let r1 := JSONResponse 200 (JDict [
    ("flat_pattern", JDict [("flat_x_mm", JNum 127); ("flat_y_mm", JNum 50)]);
    ("flat_pattern_in", JDict [("flat_x_in", JNum 5); ("flat_y_in", JNum (1969 # 1000))]);
    ("thickness_mm", JNum 2); ("thickness_in", JNum (79 # 1000));
    ("parsed_layers", JList []); ("parsed_notes", JList []);
    ("dxf_units", JStr "unknown"); ("customer_name", JNull);
    ("part_number", JNull); ("part_description", JNull);
    ("flat_dxf", JStr (string_of_list_byte [x30; x0a; x45; x4f; x46]))]) in
  response_of (main_freecad.unfold (Demo.libs true) Demo.step_file ∅) = Ok r1 /\
  status_code r1 = 200 /\
  body_keys r1 = freecad_keys.
Proof.
  intros r1.
  assert (H : response_of (main_freecad.unfold (Demo.libs true) Demo.step_file ∅) = Ok r1)
    by (vm_compute; reflexivity).
  split; [exact H |]. split; [reflexivity |].
  exact (proj1 (success_response_keys (Demo.libs true) Demo.step_file ∅) r1 H eq_refl).
Defined.

(** C6 as stated fails in both variants: a successful response of
    [main.py] has no inch dimensions and no customer, part-number or
    description field, and one of [main_freecad.py] has no bounding box. *)
Lemma no_variant_returns_every_field :
  (exists r, response_of (main.unfold (Demo.libs true) Demo.dxf_mm ∅) = Ok r /\
     status_code r = 200 /\
     body_get "flat_pattern_in" r = None /\
     body_get "customer_name" r = None /\
     body_get "part_number" r = None /\
     body_get "part_description" r = None /\
     ~ specified_fields ⊆ body_keys r) /\
  (exists r, response_of (main_freecad.unfold (Demo.libs true) Demo.dxf_mm ∅) = Ok r /\
     status_code r = 200 /\
     body_get "bounding_box_mm" r = None /\
     ~ specified_fields ⊆ body_keys r).
Proof.
  split.
  - eexists. split; [vm_compute; reflexivity |].
    repeat split; try reflexivity.
    intros H. specialize (H "customer_name").
    assert (Hin : "customer_name" ∈ specified_fields)
      by (apply list_elem_of_In; vm_compute; tauto).
    apply H, list_elem_of_In in Hin. vm_compute in Hin.
    intuition discriminate.
  - eexists. split; [vm_compute; reflexivity |].
    repeat split; try reflexivity.
    intros H. specialize (H "bounding_box_mm").
    assert (Hin : "bounding_box_mm" ∈ specified_fields)
      by (apply list_elem_of_In; vm_compute; tauto).
    apply H, list_elem_of_In in Hin. vm_compute in Hin.
    intuition discriminate.
Qed.

(** ** The format dispatch *)


(** The log as one list, and membership of a listed event. *)
Ltac flat_log := rewrite <- ?app_assoc; cbn [app].









(** ** Unit detection and rescaling on the [.dxf] branch *)

Lemma is_dxf (file : UploadFile) :
  suffix_of file = ".dxf" ->
  String.eqb (Py.lower (Py.splitext_ext (filename file))) ".dxf" = true.
Proof. intros H. apply String.eqb_eq. exact H. Qed.

Ltac find_in :=
  repeat first
    [ apply list_elem_of_here
    | assumption
    | apply list_elem_of_further
    | apply elem_of_app; first [left; assumption | right] ].











Lemma header_absent_defaults_to_0 (d : Drawing) :
  header d !! "$INSUNITS" = None -> INSUNITS d = 0.
Proof. unfold INSUNITS. by intros ->. Qed.


(** ** A missing unfolder *)



(** ** Temporary files *)

Lemma fs_without_other (path : option string) (f : gmap string (list byte)) (q : string) :
  path <> Some q -> fs_without path f !! q = f !! q.
Proof.
  intros Hne. unfold fs_without. destruct path as [p|]; [|reflexivity].
  destruct (_ && _); [|reflexivity].
  apply lookup_delete_ne. congruence.
Qed.

Lemma length_append (a b : string) :
  String.length (a ++ b) = (String.length a + String.length b)%nat.
Proof. induction a as [|c a IH]; [reflexivity |]. simpl. f_equal. exact IH. Qed.

Lemma ascii_path_differs (p : string) : p ++ "_ascii.dxf" <> p.
Proof.
  intros H. apply (f_equal String.length) in H.
  rewrite length_append in H. cbn in H. lia.
Qed.

(** The lookup of the first temporary file in the filesystem a [.dxf]
    run leaves: neither removal touches it. *)
Ltac leak_leaf Hfresh :=
  unfold satisfies; cbv beta iota delta [fst snd]; unfold after_cleanup; run_monad;
  repeat match goal with
         | H : ?a = ?b |- _ => is_var a; is_var b; subst a
         end;
  match goal with
  | |- _ !! ?k = _ =>
      pose proof (ascii_path_differs k);
      repeat match goal with
             | H : ?q = NamedTemporaryFile ?L (<[_:=_]> _) _ |- _ =>
                 assert (q <> k)
                   by (rewrite H; apply Hfresh;
                       rewrite lookup_insert_ne by assumption;
                       rewrite lookup_insert_eq; eauto);
                 clear H
             end
  end;
  rewrite !fs_without_other by congruence;
  rewrite ?lookup_insert_ne by assumption;
  rewrite lookup_insert_eq; reflexivity.

(** Once the ASCII copy of a [.dxf] upload has been saved, the file that
    holds the uploaded bytes outlives the request, whatever happens
    next.  The only assumption is that the name of the flat-pattern file
    is not the name of that existing file. *)
Lemma upload_copy_left_freecad (L : Libs) (file : UploadFile)
    (fs0 : gmap string (list byte)) (mime : string) (d : Drawing) (data : list byte) :
  let tmp := NamedTemporaryFile L fs0 (suffix_of file) in
  (forall f, is_Some (f !! tmp) -> NamedTemporaryFile L f ".dxf" <> tmp) ->
  suffix_of file = ".dxf" ->
  Z.of_nat (length (content file)) <= 2 * 1024 * 1024 ->
  magic_from_buffer L (take 2048 (content file)) = Ok mime ->
  mime ∈ main_freecad.allowed_mimes ->
  ezdxf_readfile L (content file) = Ok d ->
  saveas L (rescaled L (scaling_factor (INSUNITS d)) d) = Ok data ->
  fs_after (main_freecad.unfold L file fs0) !! tmp = Some (content file).
Proof.
  intros tmp Hfresh Hsuf%is_dxf Hsize%size_mb_within Hmagic Hmime%str_in_spec Hread Hsave.
  assert (Hs : negb (Qle_bool (size_mb file) 2) = false) by (by rewrite Hsize).
  assert (Hm : negb (Py.str_in mime main_freecad.allowed_mimes) = false)
    by (by rewrite Hmime).
  unfold main_freecad.unfold. rewrite try_finally_cleanup.
  unfold fs_after. cbn [fst snd]. subst tmp. unfold suffix_of in *.
  match goal with
  | |- context [(?X).2] =>
      pattern (X.2);
      match goal with |- ?P _ => change (satisfies X (fun _ st => P st)) end
  end.
  unfold main_freecad.unfold_try, main_freecad.on_exception,
    main_freecad.dxf_branch, main_freecad.unfolding.
  exec. all: leak_leaf Hfresh.
Qed.

Lemma upload_copy_left_main (L : Libs) (file : UploadFile)
    (fs0 : gmap string (list byte)) (d : Drawing) (data : list byte) :
  let tmp := NamedTemporaryFile L fs0 (suffix_of file) in
  (forall f, is_Some (f !! tmp) -> NamedTemporaryFile L f ".dxf" <> tmp) ->
  suffix_of file = ".dxf" ->
  ezdxf_readfile L (content file) = Ok d ->
  saveas L (rescaled L (scaling_factor (INSUNITS d)) d) = Ok data ->
  fs_after (main.unfold L file fs0) !! tmp = Some (content file).
Proof.
  intros tmp Hfresh Hsuf%is_dxf Hread Hsave.
  unfold main.unfold. rewrite try_finally_cleanup.
  unfold fs_after. cbn [fst snd]. subst tmp. unfold suffix_of in *.
  match goal with
  | |- context [(?X).2] =>
      pattern (X.2);
      match goal with |- ?P _ => change (satisfies X (fun _ st => P st)) end
  end.
  unfold main.unfold_try, main.on_exception, main.dxf_branch, main.unfolding.
  exec. all: leak_leaf Hfresh.
Qed.

Lemma upload_copy_left_example :
  fs_after (main_freecad.unfold (Demo.libs true) Demo.dxf_mm ∅) !! "/tmp/tmp0.dxf"
    = Some (content Demo.dxf_mm) /\
  fs_after (main.unfold (Demo.libs true) Demo.dxf_mm ∅) !! "/tmp/tmp0.dxf"
    = Some (content Demo.dxf_mm).
Proof.
  assert (Hfresh : forall f : gmap string (list byte),
             is_Some (f !! NamedTemporaryFile (Demo.libs true) ∅ (suffix_of Demo.dxf_mm)) ->
             NamedTemporaryFile (Demo.libs true) f ".dxf"
               <> NamedTemporaryFile (Demo.libs true) ∅ (suffix_of Demo.dxf_mm)).
  { change (NamedTemporaryFile (Demo.libs true) ∅ (suffix_of Demo.dxf_mm))
      with "/tmp/tmp0.dxf".
    intros f Hf. cbn [NamedTemporaryFile Demo.libs].
    change ("/tmp/tmp0" ++ ".dxf") with "/tmp/tmp0.dxf".
    rewrite bool_decide_eq_true_2 by exact Hf. discriminate. }
  split.
  - apply (upload_copy_left_freecad (Demo.libs true) Demo.dxf_mm ∅ "text/plain"
             (Demo.drawing 4) [x30; x0a] Hfresh); try reflexivity.
    + vm_compute. discriminate.
    + apply str_in_spec. reflexivity.
  - apply (upload_copy_left_main (Demo.libs true) Demo.dxf_mm ∅
             (Demo.drawing 4) [x30; x0a] Hfresh); reflexivity.
Qed.

(** C1 fails on the [.dxf] branch.  Both variants rebind [tmp_path] to the
    ASCII copy, so the [finally] block removes that copy and the
    flat-pattern file but not the file holding the uploaded bytes: after a
    successful request for a DXF upload, the first temporary file is still
    on the filesystem, with the upload in it. *)
Theorem dxf_upload_copy_left_behind :
  let run := main_freecad.unfold (Demo.libs true) Demo.dxf_mm ∅ in
  (status_code <$> option_of (response_of run)) = Some 200 /\
  temp_files run = ["/tmp/tmp0.dxf"; "/tmp/tmp0.dxf_ascii.dxf"; "/tmp/tmp1.dxf"] /\
  fs_after run !! "/tmp/tmp0.dxf" = Some (content Demo.dxf_mm) /\
  fs_after run !! "/tmp/tmp0.dxf_ascii.dxf" = None /\
  fs_after run !! "/tmp/tmp1.dxf" = None.
Proof. cbv zeta. repeat split; vm_compute; reflexivity. Qed.

Lemma main_py_leaves_upload_copy :
  let run := main.unfold (Demo.libs true) Demo.dxf_mm ∅ in
  (status_code <$> option_of (response_of run)) = Some 200 /\
  fs_after run !! "/tmp/tmp0.dxf" = Some (content Demo.dxf_mm).
Proof. cbv zeta. repeat split; vm_compute; reflexivity. Qed.

(** The sibling branch does what the [.dxf] branch misses: after a
    request for any other format nothing is left. *)
Lemma other_upload_cleaned_up :
  let run := main_freecad.unfold (Demo.libs true) Demo.step_file ∅ in
  (status_code <$> option_of (response_of run)) = Some 200 /\
  temp_files run = ["/tmp/tmp0.step"; "/tmp/tmp0.dxf"] /\
  fs_after run = ∅.
Proof. cbv zeta. repeat split; vm_compute; reflexivity. Qed.

(** ** The rate-limit handler (lines 78-80) *)

Lemma rate_limit_handler_429 :
  main_freecad.rate_limit_handler =
    PlainResponse "Rate limit exceeded. Please slow down." 429 /\
  status_code main_freecad.rate_limit_handler = 429.
Proof. split; reflexivity. Qed.

(** * Further properties of the handler *)

(** ** The response as a function of the upload *)

Ltac run_pure :=
  cbv beta iota zeta delta
      [mbind mret fmap M_bind M_ret result_bind result_ret
       call try_except try_finally emit set_fs emit_all
       assign_tmp_path assign_flat_dxf_path read_tmp_path read_flat_dxf_path
       mktemp write readfile dxf_saveas import_with Objects_last part_read
       get_Shape export open_read remove_if_exists cleanup
       fs log tmp_path flat_dxf_path response_of log_of fs_after fst snd
       parsed_layers parsed_notes dxf_units obj Objects Shape
       shape_of last_object from_option option_fmap option_map].

Ltac pure_step :=
  first
  [ progress run_pure
  | progress cbn [app]
  | name_temp_file
  | match goal with |- context [scale_modelspace] => rewrite scale_modelspace_run end
  | match goal with |- context [<[?p:=_]> _ !! ?p] => rewrite lookup_insert_eq end
  | split_any ].

Lemma freecad_response_correct (L : Libs) (file : UploadFile)
    (fs0 : gmap string (list byte)) :
  response_of (main_freecad.unfold L file fs0) = Ok (freecad_response L file).
Proof.
  unfold main_freecad.unfold. rewrite try_finally_cleanup.
  unfold response_of. cbn [fst snd].
  unfold main_freecad.unfold_try, main_freecad.on_exception,
    main_freecad.dxf_branch, main_freecad.generic_branch, main_freecad.unfolding.
  unfold freecad_response, import_stage, dispatch, unfold_stage, freecad_finish,
    freecad_body, error_response, flat_mm, flat_in, suffix_of.
  repeat pure_step.
  all: try reflexivity.
Qed.

Lemma main_response_correct (L : Libs) (file : UploadFile)
    (fs0 : gmap string (list byte)) :
  response_of (main.unfold L file fs0) = Ok (main_response L file).
Proof.
  unfold main.unfold. rewrite try_finally_cleanup.
  unfold response_of. cbn [fst snd].
  unfold main.unfold_try, main.on_exception,
    main.dxf_branch, main.generic_branch, main.unfolding.
  unfold main_response, main_outcome, import_stage, dispatch, unfold_stage,
    main_body, error_response, flat_mm, suffix_of.
  repeat pure_step.
  all: try reflexivity.
Qed.


Lemma freecad_finish_status (imp : Imported) flat :
  exists body, (freecad_finish imp flat = JSONResponse 200 body \/
                freecad_finish imp flat = JSONResponse 500 body).
Proof. unfold freecad_finish, error_response. destruct (shape_of _); eauto. Qed.

(** X2. The handler always answers with a JSON response.  The status of
    [main_freecad.py] is one of 200, 413, 415 and 500; [main.py], which
    has neither the size check nor the MIME check, answers 200 or 500. *)
Theorem status_codes (L : Libs) (file : UploadFile) (fs0 : gmap string (list byte)) :
  (exists code body,
     response_of (main_freecad.unfold L file fs0) = Ok (JSONResponse code body) /\
     code ∈ [200; 413; 415; 500]) /\
  (exists code body,
     response_of (main.unfold L file fs0) = Ok (JSONResponse code body) /\
     code ∈ [200; 500]).
Proof.
  rewrite freecad_response_correct, main_response_correct. split.
  - unfold freecad_response, error_response.
    repeat match goal with
           | |- context [match ?x with _ => _ end] =>
               lazymatch x with
               | context [match _ with _ => _ end] => fail
               | _ => destruct x
               end
           end;
      try (eexists _, _; split; [reflexivity | set_solver]).
    all: match goal with
         | |- context [freecad_finish ?i ?f] =>
             destruct (freecad_finish_status i f) as [b [-> | ->]]
         end; eexists _, _; (split; [reflexivity | set_solver]).
  - unfold main_response, error_response.
    destruct (main_outcome L file) as [r|e] eqn:E.
    + unfold main_outcome in E.
      cbv beta iota zeta delta [mbind mret result_bind result_ret] in E.
      repeat match type of E with
             | context [match ?x with _ => _ end] =>
                 lazymatch x with
                 | context [match _ with _ => _ end] => fail
                 | _ => destruct x
                 end
             end; try discriminate.
      all: injection E as <-; eexists _, _; (split; [reflexivity | set_solver]).
    + eexists _, _; (split; [reflexivity | set_solver]).
Qed.

(** ** The ways a request ends *)

Lemma freecad_finish_answer L file mime imp flat :
  accepted L file mime ->
  import_stage L (Import_insert L) file = Ok imp ->
  unfolded L imp flat ->
  freecad_answer L file (freecad_finish imp flat).
Proof.
  intros Hacc Himp Hflat. unfold freecad_finish.
  destruct (shape_of (obj imp)) as [sh|e] eqn:Hsh.
  - by eapply answer_ok.
  - by eapply answer_no_shape.
Qed.

Lemma freecad_response_answer (L : Libs) (file : UploadFile) :
  freecad_answer L file (freecad_response L file).
Proof.
  unfold freecad_response.
  destruct (Qle_bool (size_mb file) 2) eqn:Hsize; cbn [negb].
  2: { apply answer_too_large. by apply size_mb_over. }
  apply size_mb_within in Hsize.
  destruct (magic_from_buffer L _) as [mime|e] eqn:Hmagic.
  2: { by apply answer_magic_raises. }
  destruct (Py.str_in mime _) eqn:Hmime; cbn [negb].
  2: { apply answer_unsupported; [done | done |].
       intros H%str_in_spec. congruence. }
  assert (Hacc : accepted L file mime).
  { split; [done |]. split; [done |]. by apply str_in_spec. }
  destruct (import_stage L _ file) as [imp|e] eqn:Himp.
  2: { by eapply answer_import_raises. }
  destruct (SheetMetalUnfolder L) as [mk|] eqn:Hmk.
  - destruct (unfold_stage L mk imp) as [x|e] eqn:Hx.
    + eapply freecad_finish_answer; eauto. unfold unfolded. rewrite Hmk. eauto.
    + by eapply answer_unfold_raises.
  - eapply freecad_finish_answer; eauto. unfold unfolded. by rewrite Hmk.
Qed.

Lemma main_response_answer (L : Libs) (file : UploadFile) :
  main_answer L file (main_response L file).
Proof.
  unfold main_response, main_outcome.
  cbv beta iota zeta delta [mbind mret result_bind result_ret].
  destruct (import_stage L _ file) as [imp|e] eqn:Himp.
  2: { by apply main_import_raises. }
  destruct (SheetMetalUnfolder L) as [mk|] eqn:Hmk.
  - destruct (unfold_stage L mk imp) as [x|e] eqn:Hx.
    + destruct (shape_of (obj imp)) as [sh|e] eqn:Hsh.
      * eapply main_ok; eauto. unfold unfolded. rewrite Hmk. eauto.
      * eapply main_no_shape; eauto. unfold unfolded. rewrite Hmk. eauto.
    + by eapply main_unfold_raises.
  - destruct (shape_of (obj imp)) as [sh|e] eqn:Hsh.
    + eapply main_ok; eauto. unfold unfolded. by rewrite Hmk.
    + eapply main_no_shape; eauto. unfold unfolded. by rewrite Hmk.
Qed.



Lemma freecad_response_too_large (L : Libs) (file : UploadFile) :
  2 * 1024 * 1024 < Z.of_nat (length (content file)) ->
  freecad_response L file =
    JSONResponse 413 (JDict [("error", JStr "File too large. Max 2MB")]).
Proof. intros H%size_mb_over. unfold freecad_response. by rewrite H. Qed.

Lemma freecad_response_unsupported (L : Libs) (file : UploadFile) (mime : string) :
  Z.of_nat (length (content file)) <= 2 * 1024 * 1024 ->
  magic_from_buffer L (take 2048 (content file)) = Ok mime ->
  mime ∉ main_freecad.allowed_mimes ->
  freecad_response L file =
    JSONResponse 415 (JDict [("error", JStr "Unsupported file type");
                             ("detected_mime", JStr mime)]).
Proof.
  intros Hs%size_mb_within Hm Hn%str_in_false. unfold freecad_response.
  by rewrite Hs, Hm, Hn.
Qed.



(** X4. In [main_freecad.py] the answer is 413 exactly when the upload is
    larger than 2 MB: an upload of exactly 2 * 1024 * 1024 bytes passes. *)
Theorem too_large_iff (L : Libs) (file : UploadFile) (fs0 : gmap string (list byte)) :
  exists r, response_of (main_freecad.unfold L file fs0) = Ok r /\
    (status_code r = 413 <-> 2 * 1024 * 1024 < Z.of_nat (length (content file))).
Proof.
  eexists. split; [apply freecad_response_correct |]. split.
  - intros H413. destruct (freecad_response_answer L file);
      cbn in H413; try discriminate. assumption.
  - intros H. by rewrite freecad_response_too_large.
Qed.

(** X5. In [main_freecad.py] the answer is 415 exactly when the upload is
    within the size limit and libmagic returns a type outside the list. *)
Theorem unsupported_iff (L : Libs) (file : UploadFile) (fs0 : gmap string (list byte)) :
  exists r, response_of (main_freecad.unfold L file fs0) = Ok r /\
    (status_code r = 415 <->
     Z.of_nat (length (content file)) <= 2 * 1024 * 1024 /\
     exists mime, magic_from_buffer L (take 2048 (content file)) = Ok mime /\
                  mime ∉ main_freecad.allowed_mimes).
Proof.
  eexists. split; [apply freecad_response_correct |]. split.
  - intros H415. destruct (freecad_response_answer L file);
      cbn in H415; try discriminate. eauto.
  - intros (Hsize & mime & Hmagic & Hmime).
    by rewrite (freecad_response_unsupported L file mime).
Qed.



(** ** Where the fields of a successful response come from *)

Lemma import_stage_ok (L : Libs) importer file imp :
  import_stage L importer file = Ok imp ->
  dispatch L importer file = Ok imp /\ recompute L (Objects imp) = Ok tt.
Proof.
  unfold import_stage. cbv beta iota zeta delta [mbind mret result_bind result_ret].
  destruct (dispatch L importer file) as [i|]; [|discriminate].
  destruct (recompute L (Objects i)) as [[]|] eqn:E; [|discriminate].
  intros [= <-]. done.
Qed.


Lemma dispatch_dxf (L : Libs) importer file imp :
  suffix_of file = ".dxf" ->
  dispatch L importer file = Ok imp ->
  exists d data front,
    ezdxf_readfile L (content file) = Ok d /\
    saveas L (rescaled L (scaling_factor (INSUNITS d)) d) = Ok data /\
    importer data = Ok (front ++ [obj imp])%list /\
    Objects imp = (front ++ [obj imp])%list /\
    parsed_layers imp = layers d /\
    parsed_notes imp = dxf_text <$> query_TEXT d /\
    dxf_units imp = units_detected (INSUNITS d).
Proof.
  intros Hsuf%String.eqb_eq. unfold dispatch. rewrite Hsuf.
  cbv beta iota zeta delta [mbind mret result_bind result_ret last_object].
  destruct (ezdxf_readfile L (content file)) as [d|]; [|discriminate].
  destruct (saveas L _) as [data|] eqn:Hsave; [|discriminate].
  destruct (importer data) as [objs|] eqn:Himp; [|discriminate].
  destruct (rev objs) as [|o front] eqn:Hrev; [discriminate |].
  intros [= <-]. cbn.
  apply (f_equal (@rev _)) in Hrev. rewrite rev_involutive in Hrev. cbn in Hrev.
  exists d, data, (rev front). rewrite <- Hrev. done.
Qed.


Lemma freecad_body_get (imp : Imported) sh flat :
  let r := JSONResponse 200 (freecad_body imp sh flat) in
  body_get "flat_pattern" r = Some (from_option (fun x => flat_mm x.1.2) JNull flat) /\
  body_get "flat_pattern_in" r = Some (from_option (fun x => flat_in x.1.2) JNull flat) /\
  body_get "thickness_mm" r = Some (JNum (ZLength (BoundBox sh))) /\
  body_get "thickness_in" r =
    Some (JNum (main_freecad.mm_to_inches (ZLength (BoundBox sh)) 3)) /\
  body_get "parsed_layers" r = Some (json_strs (parsed_layers imp)) /\
  body_get "parsed_notes" r = Some (json_strs (parsed_notes imp)) /\
  body_get "dxf_units" r = Some (JStr (dxf_units imp)) /\
  body_get "customer_name" r =
    Some (json_str_opt (main_freecad.scan_notes (parsed_notes imp)).1.1) /\
  body_get "part_number" r =
    Some (json_str_opt (main_freecad.scan_notes (parsed_notes imp)).1.2) /\
  body_get "part_description" r =
    Some (json_str_opt (main_freecad.scan_notes (parsed_notes imp)).2) /\
  body_get "flat_dxf" r =
    Some (from_option (fun x => JStr (string_of_list_byte x.2)) JNull flat).
Proof.
  cbv zeta. unfold freecad_body.
  destruct (main_freecad.scan_notes _) as [[? ?] ?]. repeat split; reflexivity.
Qed.







(** X10. For a [.dxf] upload that parses, a successful response reports
    the layer names of the drawing and the text of every TEXT entity, as
    read and before any rescaling; in [main_freecad.py] the customer,
    part-number and description fields are what the scan of those notes
    gives. *)
Theorem dxf_metadata_is_the_drawings (L : Libs) (file : UploadFile)
    (fs0 : gmap string (list byte)) (d : Drawing) :
  suffix_of file = ".dxf" ->
  ezdxf_readfile L (content file) = Ok d ->
  let notes := dxf_text <$> query_TEXT d in
  (forall r, response_of (main_freecad.unfold L file fs0) = Ok r ->
     status_code r = 200 ->
     body_get "parsed_layers" r = Some (json_strs (layers d)) /\
     body_get "parsed_notes" r = Some (json_strs notes) /\
     body_get "customer_name" r =
       Some (json_str_opt (main_freecad.scan_notes notes).1.1) /\
     body_get "part_number" r =
       Some (json_str_opt (main_freecad.scan_notes notes).1.2) /\
     body_get "part_description" r =
       Some (json_str_opt (main_freecad.scan_notes notes).2)) /\
  (forall r, response_of (main.unfold L file fs0) = Ok r ->
     status_code r = 200 ->
     body_get "parsed_layers" r = Some (json_strs (layers d)) /\
     body_get "parsed_notes" r = Some (json_strs notes)).
Proof.
  intros Hsuf Hread notes. split; intros r Hr H200.
  - rewrite freecad_response_correct in Hr. injection Hr as <-.
    destruct (freecad_response_answer L file) as [| | | | | |mime imp flat sh Hacc Himp Hflat Hsh];
      cbn in H200; try discriminate.
    apply import_stage_ok in Himp as [Hd _].
    apply dispatch_dxf in Hd as (d' & data & front & Hread' & _ & _ & _ & Hl & Hn & _);
      [|done].
    rewrite Hread in Hread'. injection Hread' as <-.
    pose proof (freecad_body_get imp sh flat) as H. cbv zeta in H.
    rewrite Hl, Hn in H. fold notes in H. tauto.
  - rewrite main_response_correct in Hr. injection Hr as <-.
    destruct (main_response_answer L file) as [| | |imp flat sh Himp Hflat Hsh];
      cbn in H200; try discriminate.
    apply import_stage_ok in Himp as [Hd _].
    apply dispatch_dxf in Hd as (d' & data & front & Hread' & _ & _ & _ & Hl & Hn & _);
      [|done].
    rewrite Hread in Hread'. injection Hread' as <-.
    cbn. rewrite Hl, Hn. done.
Qed.

Lemma dxf_metadata_is_the_drawings_witness :
  suffix_of Demo.dxf_mm = ".dxf" /\
  ezdxf_readfile (Demo.libs true) (content Demo.dxf_mm) = Ok (Demo.drawing 4) /\
  exists r, response_of (main_freecad.unfold (Demo.libs true) Demo.dxf_mm ∅) = Ok r /\
    status_code r = 200 /\
    body_get "parsed_layers" r = Some (JList [JStr "0"; JStr "BEND"]) /\
    body_get "customer_name" r = Some (JStr "ACME").
Proof.
  assert (Hsuf : suffix_of Demo.dxf_mm = ".dxf") by reflexivity.
  split; [exact Hsuf |]. split; [reflexivity |].
  eexists. split; [vm_compute; reflexivity |]. split; [reflexivity |].
  edestruct (proj1 (dxf_metadata_is_the_drawings (Demo.libs true) Demo.dxf_mm ∅
                      (Demo.drawing 4) Hsuf eq_refl))
    as (Hl & _ & Hc & _); [vm_compute; reflexivity | reflexivity |].
  split; [exact Hl | exact Hc].
Defined.







(** ** The [finally] block and the filesystem *)

Lemma fs_without_self (p : string) (f : gmap string (list byte)) :
  p <> "" -> fs_without (Some p) f !! p = None.
Proof.
  intros Hp%String.eqb_neq. unfold fs_without. rewrite Hp. cbn [negb andb].
  destruct (bool_decide (is_Some (f !! p))) eqn:E.
  - apply lookup_delete_eq.
  - apply bool_decide_eq_false in E. by apply eq_None_not_Some.
Qed.

Lemma fs_without_gone (path : option string) (f : gmap string (list byte)) (p : string) :
  f !! p = None -> fs_without path f !! p = None.
Proof.
  intros H. unfold fs_without. destruct path as [q|]; [|done].
  destruct (_ && _); [|done].
  destruct (decide (q = p)) as [->|]; [apply lookup_delete_eq |].
  by rewrite lookup_delete_ne.
Qed.


Lemma omap_scale_log (L : Libs) factor d : omap created_path (scale_log L factor d) = [].
Proof.
  unfold scale_log. destruct (negb _); [|reflexivity].
  induction (modelspace d) as [|e l IH]; [reflexivity |]. cbn. exact IH.
Qed.

Lemma omap_removal path f : omap created_path (removal path f) = [].
Proof. unfold removal. destruct path; [|reflexivity]. by destruct (_ && _). Qed.

Lemma ascii_path_nonempty (p : string) : p ++ "_ascii.dxf" <> "".
Proof.
  intros H. apply (f_equal String.length) in H.
  rewrite length_append in H. cbn in H. lia.
Qed.

Ltac created :=
  repeat (cbn [omap list_omap created_path app];
          rewrite ?omap_app, ?omap_scale_log, ?omap_removal).

Ltac gone Hname :=
  first
    [ apply fs_without_self
    | apply fs_without_gone, fs_without_self ];
  first [ apply ascii_path_nonempty | subst; apply Hname ].

Ltac accounted_leaf :=
  unfold satisfies; cbv beta iota delta [fst snd]; unfold after_cleanup;
  run_monad;
  repeat match goal with
         | H : ?a = ?b |- _ => is_var a; is_var b; subst a
         end;
  flat_log; split;
  [ created; intros Hname ? Hin;
    repeat (apply elem_of_cons in Hin as [-> | Hin]);
    try (by apply elem_of_nil in Hin);
    first [ left; gone Hname
          | right; split; [reflexivity | split; [reflexivity | eexists; find_in]] ]
  | created; intros q Hq;
    rewrite ?not_elem_of_cons in Hq; destruct_and?;
    rewrite !fs_without_other by congruence;
    rewrite ?lookup_insert_ne by congruence;
    reflexivity ].

Lemma accounted_freecad (L : Libs) (file : UploadFile) (fs0 : gmap string (list byte)) :
  accounted L (NamedTemporaryFile L fs0 (suffix_of file))
    (String.eqb (suffix_of file) ".dxf") fs0
    (fs_after (main_freecad.unfold L file fs0))
    (log_of (main_freecad.unfold L file fs0)).
Proof.
  unfold main_freecad.unfold. rewrite try_finally_cleanup.
  unfold fs_after, log_of. cbn [fst snd]. unfold suffix_of.
  match goal with
  | |- accounted _ ?t ?b _ (fs (after_cleanup (?X).2)) _ =>
      change (satisfies X (fun _ st =>
        accounted L t b fs0 (fs (after_cleanup st)) (log (after_cleanup st))))
  end.
  unfold main_freecad.unfold_try, main_freecad.on_exception,
    main_freecad.dxf_branch, main_freecad.generic_branch, main_freecad.unfolding.
  destruct (String.eqb _ ".dxf") eqn:Hsuf.
  - exec. all: accounted_leaf.
  - exec. all: accounted_leaf.
Qed.

Lemma accounted_main (L : Libs) (file : UploadFile) (fs0 : gmap string (list byte)) :
  accounted L (NamedTemporaryFile L fs0 (suffix_of file))
    (String.eqb (suffix_of file) ".dxf") fs0
    (fs_after (main.unfold L file fs0))
    (log_of (main.unfold L file fs0)).
Proof.
  unfold main.unfold. rewrite try_finally_cleanup.
  unfold fs_after, log_of. cbn [fst snd]. unfold suffix_of.
  match goal with
  | |- accounted _ ?t ?b _ (fs (after_cleanup (?X).2)) _ =>
      change (satisfies X (fun _ st =>
        accounted L t b fs0 (fs (after_cleanup st)) (log (after_cleanup st))))
  end.
  unfold main.unfold_try, main.on_exception,
    main.dxf_branch, main.generic_branch, main.unfolding.
  destruct (String.eqb _ ".dxf") eqn:Hsuf.
  - exec. all: accounted_leaf.
  - exec. all: accounted_leaf.
Qed.

(** X14. Provided temporary files have a name, every file a request
    creates is gone when the request finishes, with one exception: the
    copy of a [.dxf] upload, once the ASCII copy has been saved.  This
    holds in both variants and whatever the response is, error responses
    included. *)
Theorem temp_files_accounted (L : Libs) (file : UploadFile)
    (fs0 : gmap string (list byte)) :
  (forall f s, NamedTemporaryFile L f s <> "") ->
  let tmp := NamedTemporaryFile L fs0 (suffix_of file) in
  (forall p, p ∈ temp_files (main_freecad.unfold L file fs0) ->
     fs_after (main_freecad.unfold L file fs0) !! p = None \/
     (p = tmp /\ suffix_of file = ".dxf" /\
      exists d, Ev (C_saveas d (tmp ++ "_ascii.dxf")) None
                  ∈ log_of (main_freecad.unfold L file fs0))) /\
  (forall p, p ∈ temp_files (main.unfold L file fs0) ->
     fs_after (main.unfold L file fs0) !! p = None \/
     (p = tmp /\ suffix_of file = ".dxf" /\
      exists d, Ev (C_saveas d (tmp ++ "_ascii.dxf")) None
                  ∈ log_of (main.unfold L file fs0))).
Proof.
  intros Hname tmp. split; intros p Hp.
  - destruct (proj1 (accounted_freecad L file fs0) Hname p Hp) as [H | (H1 & H2 & H3)];
      [by left | right]. split; [done |]. split; [by apply String.eqb_eq | done].
  - destruct (proj1 (accounted_main L file fs0) Hname p Hp) as [H | (H1 & H2 & H3)];
      [by left | right]. split; [done |]. split; [by apply String.eqb_eq | done].
Qed.

Lemma demo_names_nonempty (u : bool) (f : gmap string (list byte)) (s : string) :
  NamedTemporaryFile (Demo.libs u) f s <> "".
Proof. cbn. by destruct (bool_decide _). Qed.

Lemma temp_files_accounted_witness :
  (forall f s, NamedTemporaryFile (Demo.libs true) f s <> "") /\
  forall p, p ∈ temp_files (main_freecad.unfold (Demo.libs true) Demo.step_file ∅) ->
    fs_after (main_freecad.unfold (Demo.libs true) Demo.step_file ∅) !! p = None \/
    (p = "/tmp/tmp0.step" /\ suffix_of Demo.step_file = ".dxf" /\
     exists d, Ev (C_saveas d ("/tmp/tmp0.step" ++ "_ascii.dxf")) None
                 ∈ log_of (main_freecad.unfold (Demo.libs true) Demo.step_file ∅)).
Proof.
  split; [apply demo_names_nonempty |].
  exact (proj1 (temp_files_accounted (Demo.libs true) Demo.step_file ∅
                  (demo_names_nonempty true))).
Defined.

(** X15. A request changes no file but its own temporary files: at every
    path other than those it created, the filesystem after the request
    is the filesystem before it. *)
Theorem other_files_untouched (L : Libs) (file : UploadFile)
    (fs0 : gmap string (list byte)) (q : string) :
  (q ∉ temp_files (main_freecad.unfold L file fs0) ->
   fs_after (main_freecad.unfold L file fs0) !! q = fs0 !! q) /\
  (q ∉ temp_files (main.unfold L file fs0) ->
   fs_after (main.unfold L file fs0) !! q = fs0 !! q).
Proof.
  split.
  - apply (proj2 (accounted_freecad L file fs0)).
  - apply (proj2 (accounted_main L file fs0)).
Qed.

(** ** The notes *)

Lemma last_or_cons_true acc x l : last_or acc (x :: l) = last_or (Some x) l.
Proof. unfold last_or. rewrite last_cons. by destruct (last l). Qed.

Lemma last_or_None l : last_or None l = last l.
Proof. unfold last_or. by destruct (last l). Qed.

Lemma scan_notes_from (notes : list string) (c p d : option string) :
  fold_left main_freecad.scan_note notes (c, p, d) =
    (last_or c (field_of <$> List.filter is_customer notes),
     last_or p (field_of <$> List.filter is_part_number notes),
     last_or d (field_of <$> List.filter is_description notes)).
Proof.
  revert c p d. induction notes as [|n notes IH]; intros c p d; [reflexivity |].
  cbn [fold_left List.filter]. unfold main_freecad.scan_note at 2.
  unfold is_part_number, is_description, is_customer.
  fold (field_of n).
  destruct (Py.contains "customer" (Py.lower n)); cbn [negb andb].
  { rewrite IH. cbn [fmap list_fmap]. by rewrite last_or_cons_true. }
  destruct (Py.contains "part" (Py.lower n) && Py.contains "no" (Py.lower n));
    cbn [negb andb].
  { rewrite IH. cbn [fmap list_fmap]. by rewrite last_or_cons_true. }
  destruct (Py.contains "desc" (Py.lower n)).
  { rewrite IH. cbn [fmap list_fmap]. by rewrite last_or_cons_true. }
  by rewrite IH.
Qed.

(** X16. The scan of the notes keeps, for each of the three fields, the
    last note that takes the field's branch of the [if/elif] chain: a
    note with "customer" in it is a customer note only, one with "part"
    and "no" is a part number unless it is a customer note, one with
    "desc" is a description unless it is either.  A field no note
    matches stays [None]. *)
Theorem scan_notes_last_match (notes : list string) :
  main_freecad.scan_notes notes =
    (last (field_of <$> List.filter is_customer notes),
     last (field_of <$> List.filter is_part_number notes),
     last (field_of <$> List.filter is_description notes)).
Proof.
  unfold main_freecad.scan_notes. by rewrite scan_notes_from, !last_or_None.
Qed.

Lemma split_nonempty sep s : Py.split sep s <> [].
Proof.
  destruct s as [|a s]; [discriminate |]. cbn.
  destruct (Ascii.eqb a sep); [discriminate |]. by destruct (Py.split sep s).
Qed.

Lemma last_str_cons x l : l <> [] -> Py.last_str (x :: l) = Py.last_str l.
Proof. unfold Py.last_str. by destruct l. Qed.

Lemma split_last_no_sep sep s : has_char sep (Py.last_str (Py.split sep s)) = false.
Proof.
  induction s as [|a s IH]; [reflexivity |]. cbn [Py.split].
  destruct (Ascii.eqb a sep) eqn:E.
  - rewrite last_str_cons by apply split_nonempty. exact IH.
  - destruct (Py.split sep s) as [|h t] eqn:Hs; [by destruct (split_nonempty sep s) |].
    destruct t as [|h' t'].
    + cbn in IH |- *. by rewrite E, IH.
    + rewrite last_str_cons by discriminate.
      rewrite last_str_cons in IH by discriminate. exact IH.
Qed.

Lemma split_without_sep sep s : has_char sep s = false -> Py.split sep s = [s].
Proof.
  induction s as [|a s IH]; [reflexivity |]. cbn.
  intros [E H]%orb_false_iff. rewrite E. by rewrite IH.
Qed.

Lemma lstrip_no_char c s : has_char c s = false -> has_char c (Py.lstrip s) = false.
Proof.
  induction s as [|a s IH]; [reflexivity |]. cbn [Py.lstrip].
  intros H. destruct (Py.isspace a); [|exact H].
  apply IH. cbn in H. by apply orb_false_iff in H as [_ ?].
Qed.

Lemma rstrip_no_char c s : has_char c s = false -> has_char c (Py.rstrip s) = false.
Proof.
  induction s as [|a s IH]; [reflexivity |]. cbn [Py.rstrip has_char].
  intros [E H]%orb_false_iff. specialize (IH H).
  destruct (Py.rstrip s) as [|b r].
  - destruct (Py.isspace a); [reflexivity |]. cbn. by rewrite E.
  - cbn [has_char] in IH |- *. by rewrite E, IH.
Qed.

Lemma lstrip_first s a : first_char (Py.lstrip s) = Some a -> Py.isspace a = false.
Proof.
  induction s as [|b s IH]; [discriminate |]. cbn [Py.lstrip].
  destruct (Py.isspace b) eqn:E; [exact IH |]. by intros [= <-].
Qed.

Lemma rstrip_first s a :
  first_char (Py.rstrip s) = Some a -> first_char s = Some a.
Proof.
  destruct s as [|b s]; [discriminate |]. cbn [Py.rstrip].
  destruct (Py.rstrip s); [destruct (Py.isspace b); [discriminate |] |]; done.
Qed.

Lemma rstrip_last s a : last_char (Py.rstrip s) = Some a -> Py.isspace a = false.
Proof.
  induction s as [|b s IH]; [discriminate |]. cbn [Py.rstrip].
  destruct (Py.rstrip s) as [|c r].
  - destruct (Py.isspace b) eqn:E; [discriminate |]. by intros [= <-].
  - cbn [last_char]. cbn [last_char] in IH.
    destruct (last_char r); [exact IH |]. exact IH.
Qed.

Lemma field_of_clean (note : string) :
  has_char ":"%char (field_of note) = false /\
  (forall a, first_char (field_of note) = Some a -> Py.isspace a = false) /\
  (forall a, last_char (field_of note) = Some a -> Py.isspace a = false).
Proof.
  unfold field_of, Py.strip. split; [| split].
  - apply rstrip_no_char, lstrip_no_char, split_last_no_sep.
  - intros a H%rstrip_first. by apply lstrip_first in H.
  - apply rstrip_last.
Qed.

(** X17. A value the scan extracts is the text after the last colon of
    one of the notes, stripped: it has no colon in it and neither starts
    nor ends with whitespace. *)
Theorem extracted_fields_clean (notes : list string) (v : string) :
  (main_freecad.scan_notes notes).1.1 = Some v \/
  (main_freecad.scan_notes notes).1.2 = Some v \/
  (main_freecad.scan_notes notes).2 = Some v ->
  (exists note, note ∈ notes /\ v = Py.strip (Py.last_str (Py.split ":"%char note))) /\
  has_char ":"%char v = false /\
  (forall a, first_char v = Some a -> Py.isspace a = false) /\
  (forall a, last_char v = Some a -> Py.isspace a = false).
Proof.
  unfold main_freecad.scan_notes. rewrite scan_notes_from, !last_or_None.
  cbn [fst snd].
  assert (H : forall P, last (field_of <$> List.filter P notes) = Some v ->
            exists note, note ∈ notes /\ v = field_of note).
  { intros P Hl. apply last_Some_elem_of, list_elem_of_fmap in Hl as (n & -> & Hn).
    exists n. split; [|done]. apply list_elem_of_In in Hn.
    apply filter_In in Hn as [Hn _]. by apply list_elem_of_In. }
  intros [Hv | [Hv | Hv]]; apply H in Hv as (n & Hn & ->);
    (split; [by exists n | apply field_of_clean]).
Qed.

Lemma extracted_fields_clean_witness :
  (main_freecad.scan_notes ["Customer: ACME "; "Part No : 42-A"]).1.1 = Some "ACME" /\
  has_char ":"%char "ACME" = false.
Proof.
  split; [reflexivity |].
  apply (extracted_fields_clean ["Customer: ACME "; "Part No : 42-A"] "ACME").
  left. reflexivity.
Defined.

(** X18. A matching note that has no colon is taken whole: the field is
    the stripped note itself, keyword included. *)
Theorem note_without_colon_taken_whole (notes : list string) (note : string) :
  has_char ":"%char note = false ->
  Py.contains "customer" (Py.lower note) = true ->
  (main_freecad.scan_notes (notes ++ [note])).1.1 = Some (Py.strip note).
Proof.
  intros Hc Hcust. unfold main_freecad.scan_notes.
  rewrite scan_notes_from, !last_or_None. cbn [fst].
  rewrite List.filter_app. cbn [List.filter]. unfold is_customer at 2. rewrite Hcust.
  rewrite fmap_app. cbn [fmap list_fmap]. rewrite last_snoc. unfold field_of.
  by rewrite split_without_sep.
Qed.

Lemma note_without_colon_taken_whole_witness :
  has_char ":"%char "for customer ACME " = false /\
  Py.contains "customer" (Py.lower "for customer ACME ") = true /\
  (main_freecad.scan_notes (["Customer: Bolt"] ++ ["for customer ACME "])).1.1
    = Some "for customer ACME".
Proof.
  split; [reflexivity |]. split; [reflexivity |].
  exact (note_without_colon_taken_whole ["Customer: Bolt"] "for customer ACME "
           eq_refl eq_refl).
Defined.


(** ** The extension of the file name *)

Lemma append_nil (s : string) : "" ++ s = s.
Proof. reflexivity. Qed.

Lemma append_cons (a : ascii) (s t : string) : String a s ++ t = String a (s ++ t).
Proof. reflexivity. Qed.

Lemma append_assoc (s t u : string) : (s ++ t) ++ u = s ++ (t ++ u).
Proof.
  induction s as [|a s IH]; [reflexivity |]. by rewrite !append_cons, IH.
Qed.

Lemma has_char_app c s t : has_char c (s ++ t) = has_char c s || has_char c t.
Proof.
  induction s as [|a s IH]; [reflexivity |].
  rewrite append_cons. cbn [has_char]. by rewrite IH, orb_assoc.
Qed.

Lemma has_char_split c s :
  has_char c s = true ->
  exists pre post, s = pre ++ String c post /\ has_char c post = false.
Proof.
  induction s as [|a s IH]; [discriminate |]. cbn [has_char].
  destruct (has_char c s) eqn:Hs.
  - intros _. destruct (IH eq_refl) as (pre & post & -> & Hp).
    by exists (String a pre), post.
  - rewrite orb_false_r. intros ->%Ascii.eqb_eq. by exists "", s.
Qed.

Lemma rfind_from_none c s i acc :
  has_char c s = false -> Py.rfind_from c s i acc = acc.
Proof.
  revert i acc. induction s as [|a s IH]; [reflexivity |]. cbn.
  intros i acc [-> H]%orb_false_iff. by apply IH.
Qed.

Lemma rfind_from_last c pre post i acc :
  has_char c post = false ->
  Py.rfind_from c (pre ++ String c post) i acc = i + Z.of_nat (String.length pre).
Proof.
  intros Hp. revert i acc. induction pre as [|a pre IH]; intros i acc.
  - rewrite append_nil. cbn. rewrite Ascii.eqb_refl, rfind_from_none by done. lia.
  - rewrite append_cons. cbn [Py.rfind_from String.length]. rewrite IH. lia.
Qed.

Lemma rfind_from_app_none c s t i acc :
  has_char c t = false ->
  Py.rfind_from c (s ++ t) i acc = Py.rfind_from c s i acc.
Proof.
  intros Ht. revert i acc. induction s as [|a s IH]; intros i acc.
  - rewrite append_nil. cbn. by apply rfind_from_none.
  - rewrite append_cons. cbn. apply IH.
Qed.

Lemma rfind_from_bounds c s i acc :
  acc < i -> Py.rfind_from c s i acc < i + Z.of_nat (String.length s).
Proof.
  revert i acc. induction s as [|a s IH]; intros i acc H.
  - cbn. lia.
  - cbn [Py.rfind_from String.length].
    specialize (IH (i + 1) (if Ascii.eqb a c then i else acc)).
    destruct (Ascii.eqb a c); lia.
Qed.

Lemma rfind_from_ge c s i acc : acc <= Py.rfind_from c s i acc \/ i <= Py.rfind_from c s i acc.
Proof.
  revert i acc. induction s as [|a s IH]; intros i acc.
  - cbn. lia.
  - cbn [Py.rfind_from].
    specialize (IH (i + 1) (if Ascii.eqb a c then i else acc)).
    destruct (Ascii.eqb a c); lia.
Qed.

Lemma substring_skip a n m s :
  String.substring (String.length a + n) m (a ++ s) = String.substring n m s.
Proof. induction a as [|x a IH]; [reflexivity |]. rewrite append_cons. exact IH. Qed.

Lemma substring_prefix b x : String.substring 0 (String.length b) (b ++ x) = b.
Proof.
  induction b as [|y b IH]; [by destruct x |].
  rewrite append_cons. cbn. by rewrite IH.
Qed.

Lemma substring_all s : String.substring 0 (String.length s) s = s.
Proof. induction s as [|y s IH]; [reflexivity |]. cbn. by rewrite IH. Qed.

Lemma split_singleton sep s h : Py.split sep s = [h] -> has_char sep s = false.
Proof.
  revert h. induction s as [|y s IH]; intros h Hs; [reflexivity |].
  cbn in Hs |- *. destruct (Ascii.eqb y sep) eqn:E.
  - injection Hs as _ Hs. by destruct (split_nonempty sep s).
  - destruct (Py.split sep s) as [|h1 t1] eqn:Hs1;
      [by destruct (split_nonempty sep s) |].
    injection Hs as _ ->. by eapply IH.
Qed.

Lemma split_app_last sep a b :
  has_char sep b = false ->
  Py.last_str (Py.split sep (a ++ String sep b)) = b.
Proof.
  intros Hb. induction a as [|x a IH].
  - rewrite append_nil. cbn [Py.split]. rewrite Ascii.eqb_refl.
    rewrite last_str_cons by apply split_nonempty.
    by rewrite split_without_sep.
  - rewrite append_cons. cbn [Py.split]. destruct (Ascii.eqb x sep).
    + rewrite last_str_cons by apply split_nonempty. exact IH.
    + destruct (Py.split sep (a ++ String sep b)) as [|h t] eqn:Hs;
        [by destruct (split_nonempty sep (a ++ String sep b)) |].
      destruct t as [|h' t'].
      * apply split_singleton in Hs. rewrite has_char_app in Hs. cbn in Hs.
        rewrite Ascii.eqb_refl, orb_true_r in Hs. discriminate.
      * rewrite last_str_cons by discriminate.
        by rewrite last_str_cons in IH by discriminate.
Qed.

(** What the extension test looks at: the slice between the last slash
    and the last dot is the last component of what precedes the dot. *)
Lemma slice_basename root x :
  has_char "/"%char x = false ->
  Py.slice (root ++ x) (Py.rfind "/"%char (root ++ x) + 1)
    (Z.of_nat (String.length root)) = basename root.
Proof.
  intros Hx. unfold Py.rfind, Py.slice, basename.
  rewrite rfind_from_app_none by done.
  destruct (has_char "/"%char root) eqn:Hr.
  - destruct (has_char_split _ _ Hr) as (a & b & -> & Hb).
    rewrite rfind_from_last by done. rewrite split_app_last by done.
    rewrite length_append. cbn [String.length].
    replace (Z.to_nat (0 + Z.of_nat (String.length a) + 1))
      with (String.length (a ++ "/") + 0)%nat
      by (rewrite length_append; cbn; lia).
    replace (Z.to_nat _) with (String.length b) by lia.
    replace ((a ++ String "/" b) ++ x) with ((a ++ "/") ++ (b ++ x))
      by (by rewrite !append_assoc).
    rewrite substring_skip. apply substring_prefix.
  - rewrite rfind_from_none by done. rewrite split_without_sep by done.
    cbn [Py.last_str List.last].
    replace (Z.to_nat (-1 + 1)) with 0%nat by lia.
    replace (Z.to_nat _) with (String.length root) by lia.
    apply substring_prefix.
Qed.

Lemma slice_from_ext root x :
  Py.slice_from (root ++ x) (Z.of_nat (String.length root)) = x.
Proof.
  unfold Py.slice_from. rewrite length_append.
  replace (Z.to_nat (Z.of_nat (String.length root))) with (String.length root + 0)%nat by lia.
  rewrite substring_skip.
  replace (_ - _)%nat with (String.length x) by lia. apply substring_all.
Qed.

(** [os.path.splitext]: the extension is non-empty exactly when the path is
    [root ++ "." ++ rest] with neither a dot nor a slash in [rest] and a
    last component of [root] that is not made of dots only. *)
Lemma splitext_ext_dot root rest :
  has_char "."%char rest = false ->
  has_char "/"%char rest = false ->
  Py.all_dots (basename root) = false ->
  Py.splitext_ext (root ++ String "." rest) = String "." rest.
Proof.
  intros Hd Hs Hb. unfold Py.splitext_ext.
  assert (Hdot : Py.rfind "."%char (root ++ String "." rest)
                 = Z.of_nat (String.length root)).
  { unfold Py.rfind. rewrite rfind_from_last by done. lia. }
  rewrite Hdot, slice_basename, Hb, slice_from_ext by (cbn; by rewrite Hs).
  assert (Hlt : Py.rfind "/"%char (root ++ String "." rest)
                < Z.of_nat (String.length root)).
  { unfold Py.rfind. rewrite rfind_from_app_none by (cbn; by rewrite Hs).
    pose proof (rfind_from_bounds "/"%char root 0 (-1)). lia. }
  apply Z.ltb_lt in Hlt. by rewrite Hlt.
Qed.

Lemma splitext_ext_inv p :
  Py.splitext_ext p <> "" ->
  exists root rest,
    p = root ++ String "." rest /\
    has_char "."%char rest = false /\
    has_char "/"%char rest = false /\
    Py.all_dots (basename root) = false /\
    Py.splitext_ext p = String "." rest.
Proof.
  intros Hne.
  destruct (has_char "."%char p) eqn:Hd.
  - destruct (has_char_split _ _ Hd) as (root & rest & -> & Hr).
    exists root, rest.
    destruct (has_char "/"%char rest) eqn:Hs.
    + exfalso. apply Hne. unfold Py.splitext_ext.
      assert (Hdot : Py.rfind "."%char (root ++ String "." rest)
                     = Z.of_nat (String.length root)).
      { unfold Py.rfind. rewrite rfind_from_last by done. lia. }
      rewrite Hdot.
      destruct (has_char_split _ _ Hs) as (a & b & -> & Hb).
      assert (Hsep : Z.of_nat (String.length root)
                     < Py.rfind "/"%char (root ++ String "." (a ++ String "/" b))).
      { unfold Py.rfind.
        replace (root ++ String "." (a ++ String "/" b))
          with ((root ++ String "." a) ++ String "/" b)
          by (by rewrite append_assoc).
        rewrite rfind_from_last by done. rewrite length_append. cbn. lia. }
      apply Z.lt_le_incl, Z.ltb_ge in Hsep. by rewrite Hsep.
    + destruct (Py.all_dots (basename root)) eqn:Hb.
      * exfalso. apply Hne. unfold Py.splitext_ext.
        assert (Hdot : Py.rfind "."%char (root ++ String "." rest)
                       = Z.of_nat (String.length root)).
        { unfold Py.rfind. rewrite rfind_from_last by done. lia. }
        rewrite Hdot, slice_basename, Hb by (cbn; by rewrite Hs).
        by rewrite andb_false_r.
      * repeat split; try done. by apply splitext_ext_dot.
  - exfalso. apply Hne. unfold Py.splitext_ext.
    unfold Py.rfind at 2. rewrite rfind_from_none by done.
    pose proof (rfind_from_ge "/"%char p 0 (-1)) as Hge. fold (Py.rfind "/"%char p) in Hge.
    assert (Hlt : (Py.rfind "/"%char p <? -1)%Z = false) by (apply Z.ltb_ge; lia).
    by rewrite Hlt.
Qed.

Lemma lower_ascii_eqb_dot a : Ascii.eqb (Py.lower_ascii a) "."%char = Ascii.eqb a "."%char.
Proof. destruct a as [[] [] [] [] [] [] [] []]; reflexivity. Qed.

Lemma lower_ascii_eqb_slash a : Ascii.eqb (Py.lower_ascii a) "/"%char = Ascii.eqb a "/"%char.
Proof. destruct a as [[] [] [] [] [] [] [] []]; reflexivity. Qed.

Lemma has_dot_lower s : has_char "."%char (Py.lower s) = has_char "."%char s.
Proof.
  induction s as [|a s IH]; [reflexivity |].
  cbn [Py.lower has_char]. by rewrite lower_ascii_eqb_dot, IH.
Qed.

Lemma has_slash_lower s : has_char "/"%char (Py.lower s) = has_char "/"%char s.
Proof.
  induction s as [|a s IH]; [reflexivity |].
  cbn [Py.lower has_char]. by rewrite lower_ascii_eqb_slash, IH.
Qed.

(** X19. An upload takes the DXF branch exactly when its file name is a
    root followed by an extension that reads [.dxf] in any letter case,
    where the last path component of the root is not made of dots only:
    [part.DXF] is a DXF, while [.dxf], [dir/..dxf] and [partdxf] are not. *)
Theorem dxf_branch_iff_filename (file : UploadFile) :
  suffix_of file = ".dxf" <->
  exists root ext,
    filename file = root ++ ext /\
    Py.lower ext = ".dxf" /\
    Py.all_dots (basename root) = false.
Proof.
  unfold suffix_of. split.
  - intros Hs.
    destruct (splitext_ext_inv (filename file)) as (root & rest & Hp & _ & _ & Hb & He).
    { intros H. rewrite H in Hs. discriminate. }
    exists root, (String "." rest). rewrite He in Hs. done.
  - intros (root & ext & -> & Hl & Hb).
    destruct ext as [|a rest]; [discriminate |].
    cbn [Py.lower] in Hl. injection Hl as Ha Hr.
    assert (a = "."%char) as ->.
    { apply Ascii.eqb_eq. rewrite <- lower_ascii_eqb_dot, Ha. reflexivity. }
    rewrite splitext_ext_dot; [cbn [Py.lower]; by rewrite Hr | | | done].
    + by rewrite <- has_dot_lower, Hr.
    + by rewrite <- has_slash_lower, Hr.
Qed.

(** X20. The suffix the temporary file is created with never contains a
    slash, whatever the uploaded file name is; it is empty or a dot
    followed by characters that are not dots. *)
Theorem temp_suffix_is_one_extension (file : UploadFile) :
  has_char "/"%char (suffix_of file) = false /\
  (suffix_of file = "" \/
   exists rest, suffix_of file = String "." rest /\ has_char "."%char rest = false).
Proof.
  unfold suffix_of.
  destruct (Py.splitext_ext (filename file)) as [|a e] eqn:He; [by split; [| left] |].
  destruct (splitext_ext_inv (filename file)) as (root & rest & _ & Hd & Hs & _ & He').
  { rewrite He. discriminate. }
  rewrite <- He, He'. split.
  - rewrite has_slash_lower. cbn. exact Hs.
  - right. exists (Py.lower rest). split; [reflexivity |]. by rewrite has_dot_lower.
Qed.
